(** * Vehicle traffic API: the time-bucketing and aggregation endpoints

    A shallow embedding of [backend/main.py].  The endpoints are written
    in an exception-and-session monad over a relational store that maps
    table names to rows; timestamps are Python [datetime] values, kept as
    records of calendar fields the way the interpreter and PostgreSQL
    present them. *)

From Stdlib Require Import ZArith QArith Qround Lia Ascii String Sorted.
From stdpp Require Import base decidable option list strings gmap pretty.

Local Open Scope Z_scope.

(** ** Calendar values *)

(** A Python [datetime]: the seven calendar fields and the optional UTC
    offset of an aware value, in microseconds.  Rows read from the
    [DateTime] column are naive ([tzinfo = None]). *)
Record datetime : Type := mkdt {
  year : Z; month : Z; day : Z;
  hour : Z; minute : Z; second : Z; microsecond : Z;
  tzinfo : option Z
}.

#[export] Instance datetime_eq_dec : EqDecision datetime.
Proof. solve_decision. Defined.

(** [d.replace(hour=, minute=, second=, microsecond=)]: the date and the
    offset are kept. *)
Definition replace_time (d : datetime) (h mi s us : Z) : datetime :=
  {| year := year d; month := month d; day := day d;
     hour := h; minute := mi; second := s; microsecond := us;
     tzinfo := tzinfo d |}.

(** [d.replace(minute=0, second=0, microsecond=0)]. *)
Definition replace_minute (d : datetime) : datetime :=
  replace_time d (hour d) 0 0 0.

Definition start_of_day (d : datetime) : datetime := replace_time d 0 0 0 0.
Definition end_of_day (d : datetime) : datetime := replace_time d 23 59 59 999999.

(** Naive datetimes and SQL timestamps compare field by field, most
    significant first. *)
Definition dt_fields (d : datetime) : list Z :=
  [year d; month d; day d; hour d; minute d; second d; microsecond d].

Fixpoint lex_compare (a b : list Z) : comparison :=
  match a, b with
  | [], [] => Eq
  | [], _ :: _ => Lt
  | _ :: _, [] => Gt
  | x :: a', y :: b' =>
      match x ?= y with
      | Eq => lex_compare a' b'
      | c => c
      end
  end.

Definition dt_compare (a b : datetime) : comparison :=
  lex_compare (dt_fields a) (dt_fields b).

Definition dt_leb (a b : datetime) : bool :=
  match dt_compare a b with Gt => false | _ => true end.

Definition dt_ltb (a b : datetime) : bool :=
  match dt_compare a b with Lt => true | _ => false end.

Definition dt_le (a b : datetime) : Prop := dt_leb a b = true.

(** *** The proleptic Gregorian calendar of the [datetime] module *)

Definition is_leap (y : Z) : bool :=
  (y mod 4 =? 0) && (negb (y mod 100 =? 0) || (y mod 400 =? 0)).

Definition days_in_month (y m : Z) : Z :=
  if (m =? 2) && is_leap y then 29
  else nth (Z.to_nat m) [0; 31; 28; 31; 30; 31; 30; 31; 31; 30; 31; 30; 31] 0.

Definition days_before_year (y : Z) : Z :=
  let p := y - 1 in p * 365 + p / 4 - p / 100 + p / 400.

Definition days_before_month_tbl (m : Z) : Z :=
  nth (Z.to_nat m) [0; 0; 31; 59; 90; 120; 151; 181; 212; 243; 273; 304; 334] 0.

Definition days_before_month (y m : Z) : Z :=
  days_before_month_tbl m + (if (2 <? m) && is_leap y then 1 else 0).

Definition ymd2ord (y m d : Z) : Z :=
  days_before_year y + days_before_month y m + d.

Definition ord2ymd (ordinal : Z) : Z * Z * Z :=
  let n := ordinal - 1 in
  let n400 := n / 146097 in
  let n := n mod 146097 in
  let n100 := n / 36524 in
  let n := n mod 36524 in
  let n4 := n / 1461 in
  let n := n mod 1461 in
  let n1 := n / 365 in
  let n := n mod 365 in
  let y := n400 * 400 + 1 + n100 * 100 + n4 * 4 + n1 in
  if (n1 =? 4) || (n100 =? 4) then (y - 1, 12, 31)
  else
    let leapyear := (n1 =? 3) && (negb (n4 =? 24) || (n100 =? 3)) in
    let m := Z.shiftr (n + 50) 5 in
    let preceding :=
      days_before_month_tbl m + (if (2 <? m) && leapyear then 1 else 0) in
    if n <? preceding then
      let m' := m - 1 in
      let dim := if (m' =? 2) && leapyear then 29
                 else nth (Z.to_nat m')
                        [0; 31; 28; 31; 30; 31; 30; 31; 31; 30; 31; 30; 31] 0 in
      (y, m', n - (preceding - dim) + 1)
    else (y, m, n - preceding + 1).

Definition US_PER_SECOND : Z := 1000000.
Definition US_PER_DAY : Z := 86400 * US_PER_SECOND.

(** Microseconds since the start of ordinal day 0, from the fields. *)
Definition dt_to_us (d : datetime) : Z :=
  ymd2ord (year d) (month d) (day d) * US_PER_DAY
  + ((hour d * 60 + minute d) * 60 + second d) * US_PER_SECOND
  + microsecond d.

Definition dt_of_us (t : Z) (tz : option Z) : datetime :=
  let '(y, m, d) := ord2ymd (t / US_PER_DAY) in
  let r := t mod US_PER_DAY in
  let secs := r / US_PER_SECOND in
  {| year := y; month := m; day := d;
     hour := secs / 3600; minute := (secs mod 3600) / 60; second := secs mod 60;
     microsecond := r mod US_PER_SECOND; tzinfo := tz |}.

(** [d - timedelta(microseconds=delta)].  The clock readings the
    endpoints subtract from are present-day instants, far from
    [datetime.min], so the interpreter's range check never fires there. *)
Definition sub_timedelta (d : datetime) (delta : Z) : datetime :=
  dt_of_us (dt_to_us d - delta) (tzinfo d).

Definition minutes (n : Z) : Z := n * 60 * US_PER_SECOND.
Definition hours (n : Z) : Z := n * 3600 * US_PER_SECOND.
Definition days (n : Z) : Z := n * US_PER_DAY.

(** ** [datetime.fromisoformat]

    The standard library parser as CPython 3.11 implements it, on the
    UTF-8 text of the argument: the date in the forms YYYY-MM-DD,
    YYYYMMDD, YYYY-Www[-D] and YYYYWww[D], one separator character, then
    the time HH[[:]MM[[:]SS[(.|,)f+]]] and an optional Z or signed
    offset, followed by the range checks of the [datetime] and
    [timezone] constructors.  Reading at or past the end of the text
    gives the terminating NUL.  [None] stands for [ValueError]. *)

Definition NUL : ascii := ascii_of_N 0.

Definition peek (cs : list ascii) : ascii := hd NUL cs.

(** [dtstr[i]] *)
Definition char_at (cs : list ascii) (i : nat) : ascii := nth i cs NUL.

Definition digit_val (c : ascii) : option Z :=
  let n := Z.of_N (N_of_ascii c) in
  if (48 <=? n) && (n <=? 57) then Some (n - 48) else None.

Definition is_digit (c : ascii) : bool :=
  match digit_val c with Some _ => true | None => false end.

Definition is_char (c : ascii) (s : string) : bool :=
  bool_decide (String c EmptyString = s).

(** [parse_digits(p, &var, num_digits)]: the value and the advanced
    pointer. *)
Fixpoint parse_digits (cs : list ascii) (num_digits : nat) (acc : Z)
  : option (Z * list ascii) :=
  match num_digits with
  | O => Some (acc, cs)
  | S k =>
      match digit_val (peek cs) with
      | Some v => parse_digits (tl cs) k (acc * 10 + v)
      | None => None
      end
  end.

(** Length of the leading run of characters that satisfy [f], and the
    text after it. *)
Fixpoint run_length (f : ascii → bool) (cs : list ascii) : nat :=
  match cs with
  | c :: cs' => if f c then S (run_length f cs') else O
  | [] => O
  end.

Fixpoint skip_run (f : ascii → bool) (cs : list ascii) : list ascii :=
  match cs with
  | c :: cs' => if f c then skip_run f cs' else cs
  | [] => []
  end.

(** [_find_isoformat_datetime_separator]: where the date text ends. *)
Definition find_isoformat_datetime_separator (cs : list ascii) : option nat :=
  let len := length cs in
  if (len =? 7)%nat then Some 7%nat
  else if is_char (char_at cs 4) "-" then
    if is_char (char_at cs 5) "W" then
      if (len <? 8)%nat then None
      else if (8 <? len)%nat && is_char (char_at cs 8) "-" then
        if (len =? 9)%nat then None
        else if (10 <? len)%nat && is_digit (char_at cs 10) then Some 8%nat
        else Some 10%nat
      else Some 8%nat
    else Some 10%nat
  else if is_char (char_at cs 4) "W" then
    let idx := (7 + run_length is_digit (drop 7 cs))%nat in
    if (idx <? 9)%nat then Some idx
    else if Nat.even idx then Some 7%nat
    else Some 8%nat
  else Some 8%nat.

(** [weekday(y, 1, 1)], Monday 0. *)
Definition first_weekday (y : Z) : Z := (ymd2ord y 1 1 + 6) mod 7.

(** [iso_week1_monday]: ordinal of the Monday that starts ISO week 1. *)
Definition iso_week1_monday (y : Z) : Z :=
  let first_day := ymd2ord y 1 1 in
  let wd := first_weekday y in
  let week1_monday := first_day - wd in
  if 3 <? wd then week1_monday + 7 else week1_monday.

(** [iso_to_ymd].  A week date of year 0000 resolves before 0001-01-01,
    which the constructor refuses; it is refused here. *)
Definition iso_to_ymd (iso_year iso_week iso_day : Z) : option (Z * Z * Z) :=
  let week_ok :=
    if (iso_week <=? 0) || (53 <=? iso_week) then
      (iso_week =? 53)
      && ((first_weekday iso_year =? 3)
          || ((first_weekday iso_year =? 2) && is_leap iso_year))
    else true in
  if negb week_ok then None
  else if (iso_day <=? 0) || (8 <=? iso_day) then None
  else if iso_year <? 1 then None
  else Some (ord2ymd (iso_week1_monday iso_year + (iso_week - 1) * 7 + iso_day - 1)).

(** [parse_isoformat_date(dtstr, len)] with [len] the separator
    location. *)
Definition parse_isoformat_date (cs : list ascii) (len : nat)
  : option (Z * Z * Z) :=
  '(y, p) ← parse_digits cs 4 0;
  let uses_separator := is_char (peek p) "-" in
  let p := if uses_separator then tl p else p in
  if is_char (peek p) "W" then
    '(iso_week, p) ← parse_digits (tl p) 2 0;
    if (length cs - length p <? len)%nat then
      if uses_separator && negb (is_char (peek p) "-") then None
      else
        let p := if uses_separator then tl p else p in
        '(iso_day, _) ← parse_digits p 1 0;
        iso_to_ymd y iso_week iso_day
    else iso_to_ymd y iso_week 1
  else
    '(m, p) ← parse_digits p 2 0;
    if uses_separator && negb (is_char (peek p) "-") then None
    else
      let p := if uses_separator then tl p else p in
      '(d, _) ← parse_digits p 2 0;
      Some (y, m, d).

(** How the loop over hour, minute and second is left. *)
Inductive hms_exit : Type :=
| HmsReturn (vals : list Z) (not_at_end : bool)
| HmsError
| HmsFraction (vals : list Z) (p : list ascii) (remaining : Z).

(** The loop of [parse_hh_mm_ss_ff]: [p] is the text from the pointer
    on, [remaining] is [p_end - p], [first] tells the first round. *)
Fixpoint hms_loop (rounds : nat) (first has_separator : bool)
    (p : list ascii) (remaining : Z) (vals : list Z) : hms_exit :=
  match rounds with
  | O => HmsFraction vals p remaining
  | S rounds' =>
      match parse_digits p 2 0 with
      | None => HmsError
      | Some (v, p1) =>
          let c := peek p1 in
          let has_separator := if first then is_char c ":" else has_separator in
          let vals := vals ++ [v] in
          if remaining - 3 <=? 0 then
            HmsReturn vals (negb (bool_decide (c = NUL)))
          else if has_separator && is_char c ":" then
            hms_loop rounds' false has_separator (tl p1) (remaining - 3) vals
          else if is_char c "." || is_char c "," then
            HmsFraction vals (tl p1) (remaining - 3)
          else if negb has_separator then
            hms_loop rounds' false has_separator p1 (remaining - 2) vals
          else HmsError
      end
  end.

(** The fractional part: at most six digits count, further digits are
    skipped. *)
Definition parse_fraction (p : list ascii) (remaining : Z) : option (Z * bool) :=
  let to_parse := Z.to_nat (Z.min 6 remaining) in
  '(us, p1) ← parse_digits p to_parse 0;
  let us := us * 10 ^ (6 - Z.of_nat to_parse) in
  let p2 := skip_run is_digit p1 in
  Some (us, negb (bool_decide (peek p2 = NUL))).

(** [parse_hh_mm_ss_ff(tstr, tstr_end)]: the four components and whether
    the parse stopped before the end of the text. *)
Definition parse_hh_mm_ss_ff (p : list ascii) (remaining : Z)
  : option (Z * Z * Z * Z * bool) :=
  match hms_loop 3 true true p remaining [] with
  | HmsError => None
  | HmsReturn vals rv =>
      Some (nth 0 vals 0, nth 1 vals 0, nth 2 vals 0, 0, rv)
  | HmsFraction vals p' remaining' =>
      '(us, rv) ← parse_fraction p' remaining';
      Some (nth 0 vals 0, nth 1 vals 0, nth 2 vals 0, us, rv)
  end.

Definition is_tz_char (c : ascii) : bool :=
  is_char c "Z" || is_char c "+" || is_char c "-".

(** The scan for the time zone mark: its index, or the end of the text
    (one past it when the text is empty). *)
Definition find_tzinfo_pos (cs : list ascii) : nat :=
  let n := run_length (λ c, negb (is_tz_char c)) cs in
  (Nat.max n 1 - (if is_tz_char (peek cs) then 1 else 0))%nat.

(** [parse_isoformat_time] and [tzinfo_from_isoformat_results]. *)
Definition parse_isoformat_time (cs : list ascii)
  : option (Z * Z * Z * Z * option Z) :=
  let tzinfo_pos := find_tzinfo_pos cs in
  '(h, m, s, us, rv) ← parse_hh_mm_ss_ff cs (Z.of_nat tzinfo_pos);
  if (tzinfo_pos =? length cs)%nat then
    if (rv : bool) then None else Some (h, m, s, us, None)
  else
    let mark := char_at cs tzinfo_pos in
    let after := drop (S tzinfo_pos) cs in
    if is_char mark "Z" then
      if bool_decide (peek after = NUL) then Some (h, m, s, us, Some 0) else None
    else
      '(tzh, tzm, tzs, tzus, tzrv) ←
         parse_hh_mm_ss_ff after (Z.of_nat (length after));
      if (tzrv : bool) then None
      else
        let sign := if is_char mark "-" then -1 else 1 in
        let tzoffset := sign * (tzh * 3600 + tzm * 60 + tzs) in
        if tzoffset =? 0 then Some (h, m, s, us, Some 0)
        else
          let off := tzoffset * US_PER_SECOND + sign * tzus in
          if (- US_PER_DAY <? off) && (off <? US_PER_DAY)
          then Some (h, m, s, us, Some off) else None.

(** Bytes of the separator character, from its UTF-8 lead byte. *)
Definition separator_width (c : ascii) : nat :=
  let b := Z.of_N (N_of_ascii c) in
  if Z.land b 128 =? 0 then 1%nat
  else if Z.land b 240 =? 224 then 3%nat
  else if Z.land b 240 =? 240 then 4%nat
  else 2%nat.

(** The checks of the [datetime] constructor. *)
Definition valid_fields (y mo d h mi s us : Z) : bool :=
  (1 <=? y) && (y <=? 9999) && (1 <=? mo) && (mo <=? 12)
  && (1 <=? d) && (d <=? days_in_month y mo)
  && (0 <=? h) && (h <=? 23) && (0 <=? mi) && (mi <=? 59)
  && (0 <=? s) && (s <=? 59) && (0 <=? us) && (us <=? 999999).

Definition fromisoformat (date_string : string) : option datetime :=
  let cs := list_ascii_of_string date_string in
  let len := length cs in
  if (len <? 7)%nat then None
  else
    separator_location ← find_isoformat_datetime_separator cs;
    '(y, mo, d) ← parse_isoformat_date cs separator_location;
    '(h, mi, s, us, tz) ←
       (if (separator_location <? len)%nat then
          parse_isoformat_time
            (drop (separator_location
                   + separator_width (char_at cs separator_location)) cs)
        else Some (0, 0, 0, 0, None));
    if valid_fields y mo d h mi s us
    then Some (mkdt y mo d h mi s us tz) else None.

(** ** The record store *)

(** A row of the ORM class [VehicleCount]. *)
Module VehicleCount.
Record t : Type := mk {
  id : Z;
  timestamp : datetime;
  camera_id : string;
  auto : Z; bus : Z; car : Z; bike : Z; truck : Z;
  total : Z
}.
Definition tablename : string := "jaloli_thresholds_detections_counts".
End VehicleCount.

(** The response schema [VehicleCountResponse]. *)
Module VehicleCountResponse.
Record t : Type := mk {
  timestamp : datetime;
  camera_id : string;
  car : Z; bike : Z; truck : Z; bus : Z; auto : Z;
  total : Z
}.
End VehicleCountResponse.

#[export] Instance VehicleCount_eq_dec : EqDecision VehicleCount.t.
Proof. solve_decision. Defined.

(** The database: relation name to rows. *)
Abbreviation store := (gmap string (list VehicleCount.t)).

(** A row of a grouped sum query; [time_bucket] is the column the hourly
    query calls [hour].  A [SUM] is [NULL] over no rows. *)
Record agg_row : Type := mk_agg {
  time_bucket : datetime;
  agg_camera_id : string;
  sum_car : option Z; sum_bike : option Z; sum_truck : option Z;
  sum_bus : option Z; sum_auto : option Z; sum_total : option Z
}.

(** The row of the ungrouped sums of the last-hour query. *)
Record totals_row : Type := mk_totals {
  total_cars : option Z; total_bikes : option Z; total_trucks : option Z;
  total_buses : option Z; total_autos : option Z; total_vehicles : option Z
}.

(** The row of the summary totals query (every sum under [COALESCE]). *)
Record summary_row : Type := mk_summary_row {
  s_total_cars : Z; s_total_bikes : Z; s_total_trucks : Z;
  s_total_buses : Z; s_total_autos : Z; s_total_all : Z;
  s_record_count : Z
}.

Record peak_row : Type := mk_peak { peak_hour_start : datetime; hourly_avg : Q }.

(** *** SQL operators *)

(** A bound datetime parameter as the timestamp it is compared as: an
    aware value is taken to UTC, the session time zone. *)
Definition param_ts (p : datetime) : datetime :=
  match tzinfo p with
  | None => p
  | Some off => dt_of_us (dt_to_us p - off) None
  end.

(** [col >= :p] and [col <= :p]. *)
Definition ts_ge (col p : datetime) : bool := dt_leb (param_ts p) col.
Definition ts_le (col p : datetime) : bool := dt_leb col (param_ts p).

(** [date_trunc('hour', ts)]. *)
Definition date_trunc_hour (ts : datetime) : datetime := replace_time ts (hour ts) 0 0 0.

(** [date_trunc('hour', ts) + FLOOR(EXTRACT(minute FROM ts) / i) * i *
    interval '1 minute'].  The endpoint binds [i] within [1, 60], so the
    offset is a minute of the same hour. *)
Definition bucket_of (interval : Z) (ts : datetime) : datetime :=
  replace_time ts (hour ts) (minute ts / interval * interval) 0 0.

Definition sum_Z (xs : list Z) : Z := foldr Z.add 0 xs.

Definition sql_sum (xs : list Z) : option Z :=
  match xs with [] => None | _ => Some (sum_Z xs) end.

Definition sql_avg (xs : list Z) : option Q :=
  match xs with
  | [] => None
  | _ => Some (inject_Z (sum_Z xs) / inject_Z (Z.of_nat (length xs)))%Q
  end.

Definition camera_matches (camera : option string) (r : VehicleCount.t) : bool :=
  match camera with
  | None => true
  | Some c => bool_decide (VehicleCount.camera_id r = c)
  end.

Fixpoint insert_by {A} (leb : A → A → bool) (x : A) (l : list A) : list A :=
  match l with
  | [] => [x]
  | y :: l' => if leb x y then x :: l else y :: insert_by leb x l'
  end.

(** [ORDER BY]: rows that tie keep their relative order. *)
Definition sort_by {A} (leb : A → A → bool) (l : list A) : list A :=
  foldr (insert_by leb) [] l.

(** [GROUP BY key]: the distinct keys, each with its rows. *)
Definition group_by {K} `{EqDecision K} (key : VehicleCount.t → K)
    (rows : list VehicleCount.t) : list (K * list VehicleCount.t) :=
  (λ k, (k, filter (λ r, key r = k) rows)) <$> remove_dups (key <$> rows).

Definition sums_of (k : datetime * string) (g : list VehicleCount.t) : agg_row :=
  {| time_bucket := k.1; agg_camera_id := k.2;
     sum_car := sql_sum (VehicleCount.car <$> g);
     sum_bike := sql_sum (VehicleCount.bike <$> g);
     sum_truck := sql_sum (VehicleCount.truck <$> g);
     sum_bus := sql_sum (VehicleCount.bus <$> g);
     sum_auto := sql_sum (VehicleCount.auto <$> g);
     sum_total := sql_sum (VehicleCount.total <$> g) |}.

(** [SELECT bucket, camera_id, SUM(..) .. GROUP BY bucket, camera_id
    ORDER BY bucket] over the rows the [WHERE] clause kept. *)
Definition grouped_sums (bucket : datetime → datetime)
    (rows : list VehicleCount.t) : list agg_row :=
  sort_by (λ a b, dt_leb (time_bucket a) (time_bucket b))
    ((λ kg, sums_of kg.1 kg.2) <$>
       group_by (λ r, (bucket (VehicleCount.timestamp r), VehicleCount.camera_id r)) rows).

Definition string_leb (a b : string) : bool :=
  match String.compare a b with Gt => false | _ => true end.

(** ** Exceptions and results *)

Inductive exn : Type :=
| ValueError (msg : string)
| HTTPException (status_code : Z) (detail : string)
| ProgrammingError (msg : string).

(** [str(e)]. *)
Definition exn_str (e : exn) : string :=
  match e with
  | ValueError msg => msg
  | HTTPException code detail => pretty code +:+ ": " +:+ detail
  | ProgrammingError msg => msg
  end.

Inductive result (A : Type) : Type :=
| Ok (a : A)
| Raise (e : exn).
Arguments Ok {A} a.
Arguments Raise {A} e.

#[export] Instance result_ret : MRet result := λ A a, Ok a.
#[export] Instance result_bind : MBind result := λ A B f r,
  match r with Ok a => f a | Raise e => Raise e end.

(** The status line the framework answers with: an [HTTPException]
    carries its own code, any other escaping exception is a 500. *)
Definition status_of {A} (r : result A) : Z :=
  match r with
  | Ok _ => 200
  | Raise (HTTPException code _) => code
  | Raise _ => 500
  end.

(** ** Statements

    One constructor per query the endpoints build, indexed by the shape
    of its result, with the relation named in its [FROM] clause and the
    values bound to it. *)
Inductive statement : Type → Type :=
| SelectCounts (from : string) (since : option datetime)
    (camera : option string) (limit : nat) : statement (list VehicleCount.t)
| MinTimestampToday (from : string) (camera : option string)
    : statement (option datetime)
| HourlySums (from : string) (start_time end_time : datetime)
    (camera : option string) : statement (list agg_row)
| BucketSums (from : string) (interval : Z) (start_time end_time : datetime)
    (camera : option string) : statement (list agg_row)
| SumSince (from : string) (since : datetime) (camera : option string)
    : statement totals_row
| DayTotals (from : string) (today_start today_end : datetime)
    (camera : option string) : statement summary_row
| PeakHour (from : string) (today_start today_end : datetime)
    (camera : option string) : statement (option peak_row)
| DistinctCameras (from : string) : statement (list string).

Definition from_table (tables : store) (from : string)
  : result (list VehicleCount.t) :=
  match tables !! from with
  | Some rows => Ok rows
  | None => Raise (ProgrammingError ("relation does not exist: " +:+ from))
  end.

Definition dt_min (a b : datetime) : datetime := if dt_leb a b then a else b.

Definition min_ts (l : list datetime) : option datetime :=
  match l with
  | [] => None
  | x :: l' => Some (foldr dt_min x l')
  end.

Definition totals_of (g : list VehicleCount.t) : totals_row :=
  {| total_cars := sql_sum (VehicleCount.car <$> g);
     total_bikes := sql_sum (VehicleCount.bike <$> g);
     total_trucks := sql_sum (VehicleCount.truck <$> g);
     total_buses := sql_sum (VehicleCount.bus <$> g);
     total_autos := sql_sum (VehicleCount.auto <$> g);
     total_vehicles := sql_sum (VehicleCount.total <$> g) |}.

(** [COALESCE(SUM(c), 0)] per column and [COUNT(id)]. *)
Definition day_totals_of (g : list VehicleCount.t) : summary_row :=
  {| s_total_cars := default 0 (sql_sum (VehicleCount.car <$> g));
     s_total_bikes := default 0 (sql_sum (VehicleCount.bike <$> g));
     s_total_trucks := default 0 (sql_sum (VehicleCount.truck <$> g));
     s_total_buses := default 0 (sql_sum (VehicleCount.bus <$> g));
     s_total_autos := default 0 (sql_sum (VehicleCount.auto <$> g));
     s_total_all := default 0 (sql_sum (VehicleCount.total <$> g));
     s_record_count := Z.of_nat (length g) |}.

(** [SELECT hour, AVG(total) .. GROUP BY hour ORDER BY hourly_avg DESC].
    Hours whose averages tie come in the order the groups are met; the
    database leaves that order open, so what is proved about the first
    row either holds for every order or assumes that no tie decides.
    The stored totals are integers, so every hour has an average. *)
Definition hourly_averages (rows : list VehicleCount.t) : list peak_row :=
  sort_by (λ a b, Qle_bool (hourly_avg b) (hourly_avg a))
    (omap (λ kg, mk_peak kg.1 <$> sql_avg (VehicleCount.total <$> kg.2))
       (group_by (λ r, date_trunc_hour (VehicleCount.timestamp r)) rows)).

(** What a statement returns on a store whose clock reads [now] (the
    server's [NOW()] and [CURRENT_DATE], session time zone UTC). *)
Definition run (tables : store) (now : datetime) {A} (q : statement A)
  : result A :=
  match q in statement T return result T with
  | SelectCounts from since camera limit =>
      rows ← from_table tables from;
      Ok (take limit
            (sort_by (λ a b, dt_leb (VehicleCount.timestamp b) (VehicleCount.timestamp a))
               (filter (λ r, match since with
                             | Some t => ts_ge (VehicleCount.timestamp r) t
                             | None => true
                             end && camera_matches camera r) rows)))
  | MinTimestampToday from camera =>
      rows ← from_table tables from;
      Ok (min_ts (VehicleCount.timestamp <$>
                    filter (λ r, dt_leb (start_of_day now) (VehicleCount.timestamp r)
                                 && camera_matches camera r) rows))
  | HourlySums from start_time end_time camera =>
      rows ← from_table tables from;
      Ok (grouped_sums date_trunc_hour
            (filter (λ r, ts_ge (VehicleCount.timestamp r) start_time
                          && dt_leb (VehicleCount.timestamp r) (replace_time now 21 0 0 0)
                          && camera_matches camera r) rows))
  | BucketSums from interval start_time end_time camera =>
      rows ← from_table tables from;
      Ok (grouped_sums (bucket_of interval)
            (filter (λ r, ts_ge (VehicleCount.timestamp r) start_time
                          && ts_le (VehicleCount.timestamp r) end_time
                          && camera_matches camera r) rows))
  | SumSince from since camera =>
      rows ← from_table tables from;
      Ok (totals_of
            (filter (λ r, ts_ge (VehicleCount.timestamp r) since
                          && camera_matches camera r) rows))
  | DayTotals from today_start today_end camera =>
      rows ← from_table tables from;
      Ok (day_totals_of
            (filter (λ r, ts_ge (VehicleCount.timestamp r) today_start
                          && ts_le (VehicleCount.timestamp r) today_end
                          && camera_matches camera r) rows))
  | PeakHour from today_start today_end camera =>
      rows ← from_table tables from;
      Ok (head (hourly_averages
                  (filter (λ r, ts_ge (VehicleCount.timestamp r) today_start
                                && ts_le (VehicleCount.timestamp r) today_end
                                && camera_matches camera r) rows)))
  | DistinctCameras from =>
      rows ← from_table tables from;
      Ok (sort_by string_leb (remove_dups (VehicleCount.camera_id <$> rows)))
  end.

(** ** The session monad *)

(** What a request does to its database session, oldest first. *)
Inductive event : Type :=
| Execute {A : Type} (q : statement A)
| Rollback
| Close.

Definition M (A : Type) : Type := list event → result A * list event.

#[export] Instance M_ret : MRet M := λ A a log, (Ok a, log).
#[export] Instance M_bind : MBind M := λ A B f m log,
  match m log with
  | (Ok a, log') => f a log'
  | (Raise e, log') => (Raise e, log')
  end.

Definition raise {A} (e : exn) : M A := λ log, (Raise e, log).

(** [try: body except ..: handler]; the handler re-raises what its
    clause does not name. *)
Definition try_except {A} (body : M A) (handler : exn → M A) : M A := λ log,
  match body log with
  | (Ok a, log') => (Ok a, log')
  | (Raise e, log') => handler e log'
  end.

(** [try: body finally: cleanup]. *)
Definition try_finally {A} (body : M A) (cleanup : M unit) : M A := λ log,
  let '(r, log') := body log in
  match cleanup log' with
  | (Ok _, log'') => (r, log'')
  | (Raise e, log'') => (Raise e, log'')
  end.

Definition emit (ev : event) : M unit := λ log, (Ok (), log ++ [ev]).

(** A request starts on a fresh session. *)
Definition serve {A} (m : M A) : result A * list event := m [].

(** ** Response assembly *)

(** [int(v) if v is not None else 0], column by column. *)
Definition format_row (row : agg_row) : VehicleCountResponse.t :=
  {| VehicleCountResponse.timestamp := time_bucket row;
     VehicleCountResponse.camera_id := agg_camera_id row;
     VehicleCountResponse.car := default 0 (sum_car row);
     VehicleCountResponse.bike := default 0 (sum_bike row);
     VehicleCountResponse.truck := default 0 (sum_truck row);
     VehicleCountResponse.bus := default 0 (sum_bus row);
     VehicleCountResponse.auto := default 0 (sum_auto row);
     VehicleCountResponse.total := default 0 (sum_total row) |}.

(** The body of the last-hour response, [v or 0] per sum. *)
Record hourly_totals : Type := mk_hourly_totals {
  ht_cars : Z; ht_bikes : Z; ht_trucks : Z; ht_buses : Z; ht_autos : Z; ht_total : Z
}.

Record total_vehicles_body : Type := mk_total_vehicles {
  tv_cars : Z; tv_bikes : Z; tv_trucks : Z; tv_buses : Z; tv_autos : Z; tv_all : Z
}.

(** The body of the summary response. *)
Record summary_body : Type := mk_summary {
  date : string;
  total_vehicles_of : total_vehicles_body;
  peak_hour : option string;
  peak_hour_count : Z;
  record_count : Z
}.

Record cameras_body : Type := mk_cameras { cameras : list string; count : Z }.

(** Decimal text padded with zeros on the left. *)
Definition zfill (width : nat) (n : Z) : string :=
  let s := pretty n in
  String.concat "" (replicate (width - String.length s) "0") +:+ s.

(** [d.strftime('%H:%M')] and [d.date().isoformat()]. *)
Definition strftime_HM (d : datetime) : string :=
  zfill 2 (hour d) +:+ ":" +:+ zfill 2 (minute d).

Definition date_isoformat (d : datetime) : string :=
  zfill 4 (year d) +:+ "-" +:+ zfill 2 (month d) +:+ "-" +:+ zfill 2 (day d).

(** [round] of a [Decimal]: to the nearest integer, halves to even. *)
Definition round_half_even (q : Q) : Z :=
  let f := Qfloor q in
  match Qcompare (q - inject_Z f) (1 # 2) with
  | Lt => f
  | Gt => f + 1
  | Eq => if Z.even f then f else f + 1
  end.

(** Truth value of an [Optional[str]] argument: [None] and the empty
    string are false. *)
Definition truthy (s : option string) : bool :=
  match s with
  | Some c => negb (bool_decide (c = ""))
  | None => false
  end.

(** [if camera_id: query = query.where(camera_id == camera_id)]: the
    filter a statement is built with. *)
Definition where_camera (camera_id : option string) : option string :=
  if truthy camera_id then camera_id else None.

(** ** The endpoints *)

Section Endpoints.
(** The store the request runs against and the instant it is served
    at ([datetime.utcnow()], which the database clock agrees with). *)
Context (tables : store) (now : datetime).

(** [db.execute(query, params)] *)
Definition execute {A} (q : statement A) : M A := λ log,
  (run tables now q, log ++ [Execute q]).

(** [datetime.fromisoformat(s)] inside a [try]. *)
Definition parse_date (s : option string) : M datetime :=
  match s ≫= fromisoformat with
  | Some d => mret d
  | None => raise (ValueError "Invalid isoformat string")
  end.

(** [except ValueError: raise HTTPException(status_code=400, ..)] *)
Definition except_ValueError {A} (e : exn) : M A :=
  match e with
  | ValueError _ =>
      raise (HTTPException 400 "Invalid date format. Use YYYY-MM-DD")
  | _ => raise e
  end.

(** [except Exception as e: raise HTTPException(500, f"Database error: {str(e)}")] *)
Definition except_Exception {A} (e : exn) : M A :=
  raise (HTTPException 500 ("Database error: " +:+ exn_str e)).

(** GET /api/vehicle-counts/secondly *)
Definition get_secondly_data (camera_id : option string)
  : M (list VehicleCount.t) :=
  try_except
    (let one_minute_ago := sub_timedelta now (minutes 1) in
     results ← execute (SelectCounts VehicleCount.tablename (Some one_minute_ago)
                          (where_camera camera_id) 60);
     if (length results =? 0)%nat then
       results ← execute (SelectCounts VehicleCount.tablename None
                            (where_camera camera_id) 60);
       mret results
     else mret results)
    except_Exception.

(** GET /api/vehicle-counts/hourly *)
Definition get_hourly_data (camera_id : option string)
  : M (list VehicleCountResponse.t) :=
  try_except
    (min_time_result ←
       execute (MinTimestampToday "jaloli_thresholds_detections_counts"
                  (where_camera camera_id));
     match min_time_result with
     | None => mret []
     | Some start_time =>
         let end_time := replace_minute now in
         result ← execute (HourlySums "jaloli_thresholds_detections_counts"
                             start_time end_time (where_camera camera_id));
         mret (format_row <$> result)
     end)
    except_Exception.

(** The date range of a daily request, [start_datetime] and
    [end_datetime]. *)
Definition daily_range (start_date end_date : option string)
  : M (datetime * datetime) :=
  try_except
    (start_datetime ←
       (if truthy start_date then parse_date start_date
        else mret (sub_timedelta now (days 1)));
     let start_datetime := start_of_day start_datetime in
     end_datetime ←
       (if truthy end_date then parse_date end_date
        else mret start_datetime);
     let end_datetime := end_of_day end_datetime in
     mret (start_datetime, end_datetime))
    except_ValueError.

(** GET /api/vehicle-counts/daily.  [interval_minutes] is the query
    parameter after the framework has filled in its default of 10. *)
Definition get_daily_data (interval_minutes : Z)
    (start_date end_date camera_id : option string)
  : M (list VehicleCountResponse.t) :=
  try_except
    ('(start_datetime, end_datetime) ← daily_range start_date end_date;
     let interval_minutes :=
       if (interval_minutes <? 1) || (interval_minutes >? 60) then 10
       else interval_minutes in
     try_finally
       (try_except
          (result ← execute (BucketSums "jaloli_thresholds_detections_counts"
                               interval_minutes start_datetime end_datetime
                               (where_camera camera_id));
           mret (format_row <$> result))
          (λ e, _ ← emit Rollback;
                raise (HTTPException 500 "Database query failed")))
       (emit Close))
    (λ outer_e, raise (HTTPException 500 "Processing error")).

(** GET /api/vehicle-counts/last-hour *)
Definition get_last_hour_summary (camera_id : option string)
  : M hourly_totals :=
  try_except
    (let one_hour_ago := sub_timedelta now (hours 1) in
     total_counts ← execute (SumSince VehicleCount.tablename one_hour_ago
                               (where_camera camera_id));
     mret {| ht_cars := default 0 (total_cars total_counts);
             ht_bikes := default 0 (total_bikes total_counts);
             ht_trucks := default 0 (total_trucks total_counts);
             ht_buses := default 0 (total_buses total_counts);
             ht_autos := default 0 (total_autos total_counts);
             ht_total := default 0 (total_vehicles total_counts) |})
    except_Exception.

(** GET /api/vehicle-counts/summary *)
Definition get_summary (start_date camera_id : option string)
  : M summary_body :=
  try_except
    (today_start ←
       (if truthy start_date then
          try_except
            (today_start ← parse_date start_date;
             mret (start_of_day today_start))
            except_ValueError
        else mret (start_of_day now));
     let today_end := end_of_day today_start in
     result ← execute (DayTotals "jaloli_thresholds_detections_counts"
                         today_start today_end (where_camera camera_id));
     peak_hour_result ←
       execute (PeakHour "jaloli_thresholds_detections_counts"
                  today_start today_end (where_camera camera_id));
     let peak_hour := (λ p, strftime_HM (peak_hour_start p)) <$> peak_hour_result in
     let peak_count :=
       match peak_hour_result with
       | Some p => if Qeq_bool (hourly_avg p) 0 then 0
                   else round_half_even (hourly_avg p)
       | None => 0
       end in
     let total_vehicles := s_total_all result in
     mret {| date := date_isoformat today_start;
             total_vehicles_of :=
               {| tv_cars := s_total_cars result;
                  tv_bikes := s_total_bikes result;
                  tv_trucks := s_total_trucks result;
                  tv_buses := s_total_buses result;
                  tv_autos := s_total_autos result;
                  tv_all := total_vehicles |};
             peak_hour := peak_hour;
             peak_hour_count := peak_count;
             record_count := s_record_count result |})
    except_Exception.

(** GET /api/cameras *)
Definition get_cameras : M cameras_body :=
  try_except
    (results ← execute (DistinctCameras "jaloli_thresholds-detections-counts");
     let camera_ids := results in
     mret {| cameras := camera_ids; count := Z.of_nat (length camera_ids) |})
    except_Exception.

End Endpoints.

(** ** Sample requests

    A small store used where a statement is evaluated on concrete
    input: one day of traffic from two cameras. *)

Definition at_time (h mi s : Z) : datetime := mkdt 2024 3 1 h mi s 0 None.

Definition sample_rows : list VehicleCount.t :=
  [ VehicleCount.mk 1 (at_time 8 10 0) "camA" 1 2 3 4 5 15;
    VehicleCount.mk 2 (at_time 10 15 0) "camA" 1 0 3 0 5 9 ].

Definition sample_store : store :=
  {[ VehicleCount.tablename := sample_rows ]}.

(** Half past ten on the same day. *)
Definition sample_now : datetime := at_time 10 30 0.

(** Three records of one camera inside the window that starts 10:20. *)
Definition window_rows : list VehicleCount.t :=
  [ VehicleCount.mk 1 (at_time 10 20 0) "camA" 1 0 3 1 0 5;
    VehicleCount.mk 2 (at_time 10 24 30) "camA" 0 1 2 0 1 4;
    VehicleCount.mk 3 (at_time 10 29 59) "camA" 2 0 0 0 0 7 ].

Definition window_store : store :=
  {[ VehicleCount.tablename := window_rows ]}.

(** Two records of one camera, seven minutes apart, on either side of
    the 10:10 boundary. *)
Definition straddling_rows : list VehicleCount.t :=
  [ VehicleCount.mk 1 (at_time 10 5 0) "camA" 1 0 3 0 0 4;
    VehicleCount.mk 2 (at_time 10 12 0) "camA" 0 0 2 1 0 3 ].

Definition straddling_store : store :=
  {[ VehicleCount.tablename := straddling_rows ]}.

(** A timestamp lies in the ten-minute window that starts at [w] when it
    is a naive value between [w] and the last microsecond before
    [w + 10 minutes]. *)
Definition window_end (w : datetime) : datetime :=
  replace_time w (hour w) (minute w + 9) 59 999999.

Definition in_window (w t : datetime) : Prop :=
  tzinfo t = None ∧ dt_leb w t = true ∧ dt_leb t (window_end w) = true.

(** A window start is a naive instant on a ten-minute boundary. *)
Definition window_start (w : datetime) : Prop :=
  tzinfo w = None ∧ minute w mod 10 = 0 ∧ second w = 0 ∧ microsecond w = 0.

(** The first statement of the secondly endpoint and its fallback. *)
Definition primary_query (now : datetime) (camera_id : option string)
  : statement (list VehicleCount.t) :=
  SelectCounts VehicleCount.tablename (Some (sub_timedelta now (minutes 1)))
    (where_camera camera_id) 60.

Definition fallback_query (camera_id : option string)
  : statement (list VehicleCount.t) :=
  SelectCounts VehicleCount.tablename None (where_camera camera_id) 60.

(** Whether a session event is a select with no time-range predicate. *)
Definition unbounded_select (ev : event) : bool :=
  match ev with
  | Execute q =>
      match q with
      | SelectCounts _ None _ _ => true
      | _ => false
      end
  | _ => false
  end.

(** The bucket width the daily endpoint binds for a requested one. *)
Definition effective_interval (interval_minutes : Z) : Z :=
  if (interval_minutes <? 1) || (interval_minutes >? 60) then 10
  else interval_minutes.

(** The [WHERE] clause of the daily and summary statements. *)
Definition in_range (start_time end_time : datetime) (camera : option string)
    (r : VehicleCount.t) : bool :=
  ts_ge (VehicleCount.timestamp r) start_time
  && ts_le (VehicleCount.timestamp r) end_time
  && camera_matches camera r.

(** * Properties *)

(** ** The order on timestamps *)

Lemma lex_compare_refl a : lex_compare a a = Eq.
Proof.
  induction a as [|x a IH]; simpl; [done|].
  by rewrite Z.compare_refl.
Qed.

Lemma lex_compare_le_trans a b c :
  lex_compare a b ≠ Gt → lex_compare b c ≠ Gt → lex_compare a c ≠ Gt.
Proof.
  revert b c. induction a as [|x a IH]; intros [|y b] [|z c]; simpl; try done.
  destruct (Z.compare_spec x y), (Z.compare_spec y z), (Z.compare_spec x z);
    try done; try lia; subst.
  apply IH.
Qed.

Lemma dt_leb_refl a : dt_leb a a = true.
Proof. unfold dt_leb, dt_compare. by rewrite lex_compare_refl. Qed.

Lemma dt_leb_spec a b : dt_leb a b = true ↔ dt_compare a b ≠ Gt.
Proof. unfold dt_leb. destruct (dt_compare a b); split; done. Qed.

Lemma dt_leb_trans a b c :
  dt_leb a b = true → dt_leb b c = true → dt_leb a c = true.
Proof. rewrite !dt_leb_spec. apply lex_compare_le_trans. Qed.

(** Between two lists with the same head, the head is forced. *)
Lemma lex_compare_squeeze x a y b c :
  lex_compare (x :: a) (y :: b) ≠ Gt → lex_compare (y :: b) (x :: c) ≠ Gt →
  y = x ∧ lex_compare a b ≠ Gt ∧ lex_compare b c ≠ Gt.
Proof.
  simpl. destruct (Z.compare_spec x y), (Z.compare_spec y x);
    try done; try lia.
Qed.

Lemma lex_compare_head x a y b :
  lex_compare (x :: a) (y :: b) ≠ Gt → x ≤ y.
Proof. simpl. destruct (Z.compare_spec x y); try done; lia. Qed.

Local Arguments Z.compare : simpl never.


(** ** Buckets stay inside whole-day ranges *)




(** ** Sorting, grouping and filtering *)

Lemma elem_of_insert_by {A} (leb : A → A → bool) x y l :
  y ∈ insert_by leb x l ↔ y = x ∨ y ∈ l.
Proof.
  induction l as [|z l IH]; simpl.
  - rewrite list_elem_of_singleton, elem_of_nil. tauto.
  - destruct (leb x z).
    + by rewrite elem_of_cons.
    + rewrite !elem_of_cons, IH. tauto.
Qed.

Lemma elem_of_sort_by {A} (leb : A → A → bool) y l :
  y ∈ sort_by leb l ↔ y ∈ l.
Proof.
  induction l as [|z l IH]; simpl; [done|].
  rewrite elem_of_insert_by, elem_of_cons, IH. done.
Qed.

Lemma elem_of_group_by {K} `{EqDecision K} (key : VehicleCount.t → K) rows k g :
  (k, g) ∈ group_by key rows →
  g = filter (λ r, key r = k) rows ∧ ∃ r, r ∈ rows ∧ key r = k.
Proof.
  unfold group_by. rewrite list_elem_of_fmap. intros (k' & Heq & Hin).
  inversion Heq; subst. split; [done|].
  rewrite elem_of_remove_dups, list_elem_of_fmap in Hin.
  destruct Hin as (r & -> & Hr). eauto.
Qed.

Lemma remove_dups_const {A} `{EqDecision A} (x : A) l :
  l ≠ [] → (∀ y, y ∈ l → y = x) → remove_dups l = [x].
Proof.
  induction l as [|a l IH]; [done|]. intros _ Hall. simpl.
  assert (a = x) as -> by (apply Hall; left).
  destruct (decide_rel elem_of x l) as [Hin|Hnin].
  - apply IH.
    + intros ->. by apply elem_of_nil in Hin.
    + intros y Hy. apply Hall. by right.
  - destruct l as [|b l]; [done|].
    assert (b = x) as -> by (apply Hall; right; left).
    exfalso. apply Hnin. left.
Qed.

Lemma filter_all {A} (P : A → Prop) `{∀ x, Decision (P x)} (l : list A) :
  (∀ x, x ∈ l → P x) → filter P l = l.
Proof.
  induction l as [|a l IH]; intros Hall; [done|].
  rewrite filter_cons_True by (apply Hall; left).
  f_equal. apply IH. intros x Hx. apply Hall. by right.
Qed.

Lemma filter_none {A} (P : A → Prop) `{∀ x, Decision (P x)} (l : list A) :
  (∀ x, x ∈ l → ¬ P x) → filter P l = [].
Proof.
  induction l as [|a l IH]; intros Hall; [done|].
  rewrite filter_cons_False by (apply Hall; left).
  apply IH. intros x Hx. apply Hall. by right.
Qed.

(** ** Malformed dates *)

Lemma daily_range_malformed_start now sd ed log :
  truthy sd = true → sd ≫= fromisoformat = None →
  daily_range now sd ed log
  = (Raise (HTTPException 400 "Invalid date format. Use YYYY-MM-DD"), log).
Proof.
  intros Ht Hp. unfold daily_range, try_except, parse_date. simpl.
  rewrite Ht. unfold mbind at 1, M_bind. by rewrite Hp.
Qed.

Lemma get_daily_data_malformed_start tables now iv sd ed cam :
  truthy sd = true → sd ≫= fromisoformat = None →
  serve (get_daily_data tables now iv sd ed cam)
  = (Raise (HTTPException 500 "Processing error"), []).
Proof.
  intros Ht Hp. unfold serve, get_daily_data, try_except.
  unfold mbind at 1, M_bind.
  by rewrite (daily_range_malformed_start now sd ed [] Ht Hp).
Qed.

Lemma get_summary_malformed_start tables now sd cam :
  truthy sd = true → sd ≫= fromisoformat = None →
  serve (get_summary tables now sd cam)
  = (Raise (HTTPException 500
       "Database error: 400: Invalid date format. Use YYYY-MM-DD"), []).
Proof.
  intros Ht Hp. unfold serve, get_summary, try_except, parse_date.
  by rewrite Ht, Hp.
Qed.

(** C1 (the code departs from the claim): a start date that is not a
    date is answered with status 500 by the daily and by the summary
    endpoint, although the inner handler raised the 400 of the claim. *)
Theorem malformed_date_answers_500 tables now iv ed cam :
  daily_range now (Some "not-a-date") ed []
    = (Raise (HTTPException 400 "Invalid date format. Use YYYY-MM-DD"), [])
  ∧ status_of (serve (get_daily_data tables now iv (Some "not-a-date") ed cam)).1 = 500
  ∧ status_of (serve (get_summary tables now (Some "not-a-date") cam)).1 = 500.
Proof.
  split; [by apply daily_range_malformed_start|].
  split.
  - by rewrite get_daily_data_malformed_start.
  - by rewrite get_summary_malformed_start.
Qed.

(** ** The hourly range *)

(** C2 (the code departs from the claim): at 10:30 the hourly endpoint
    returns the 10:00 bucket built from a record stamped 10:15, which is
    later than the start of the current hour it bound as [end_time]. *)
Theorem hourly_includes_current_hour :
  serve (get_hourly_data sample_store sample_now None)
  = (Ok [ VehicleCountResponse.mk (at_time 8 0 0) "camA" 3 4 5 2 1 15;
          VehicleCountResponse.mk (at_time 10 0 0) "camA" 3 0 5 0 1 9 ],
     [ Execute (MinTimestampToday "jaloli_thresholds_detections_counts" None);
       Execute (HourlySums "jaloli_thresholds_detections_counts"
                  (at_time 8 10 0) (at_time 10 0 0) None) ])
  ∧ replace_minute sample_now = at_time 10 0 0
  ∧ dt_ltb (at_time 10 0 0) (at_time 10 15 0) = true.
Proof. by vm_compute. Qed.

(** ** The cameras endpoint *)

Lemma get_cameras_missing_relation tables now :
  tables !! "jaloli_thresholds-detections-counts" = None →
  status_of (serve (get_cameras tables now)).1 = 500.
Proof.
  intros Hno. unfold serve, get_cameras, try_except, execute.
  unfold mbind, M_bind. simpl. unfold from_table. by rewrite Hno.
Qed.

(** C3 (the code departs from the claim): on a store that holds the
    detection table, with two cameras in it, the cameras endpoint reads
    a relation of another name and answers with status 500. *)
Theorem get_cameras_reads_other_relation :
  sample_store !! VehicleCount.tablename = Some sample_rows
  ∧ (serve (get_cameras sample_store sample_now)).1
    = Raise (HTTPException 500
        "Database error: relation does not exist: jaloli_thresholds-detections-counts").
Proof. by vm_compute. Qed.

(** ** The empty camera filter *)

(** C9: on every endpoint that takes [camera_id], the empty string
    behaves as an omitted parameter: no camera filter is bound and every
    row passes it. *)
Theorem empty_camera_id_is_no_filter tables now iv sd ed :
  get_secondly_data tables now (Some "") = get_secondly_data tables now None
  ∧ get_hourly_data tables now (Some "") = get_hourly_data tables now None
  ∧ get_daily_data tables now iv sd ed (Some "")
    = get_daily_data tables now iv sd ed None
  ∧ get_last_hour_summary tables now (Some "")
    = get_last_hour_summary tables now None
  ∧ get_summary tables now sd (Some "") = get_summary tables now sd None
  ∧ where_camera (Some "") = None
  ∧ ∀ r, camera_matches (where_camera (Some "")) r = true.
Proof. repeat split. Qed.

(** ** The bucket width *)

Lemma daily_range_log now sd ed log r log' :
  daily_range now sd ed log = (r, log') → log' = log.
Proof.
  unfold daily_range, try_except, parse_date, except_ValueError.
  destruct (truthy sd), (truthy ed), (sd ≫= fromisoformat),
    (ed ≫= fromisoformat); simpl; intros H; by inversion H.
Qed.

(** C4: an interval outside 1..60 makes the daily endpoint behave as
    with 10; an interval inside is the one bound to the statement. *)
Theorem interval_out_of_range_defaults tables now iv sd ed cam :
  (iv < 1 ∨ 60 < iv →
     get_daily_data tables now iv sd ed cam
     = get_daily_data tables now 10 sd ed cam)
  ∧ (1 ≤ iv ≤ 60 → ∀ s e log,
       daily_range now sd ed [] = (Ok (s, e), log) →
       Execute (BucketSums "jaloli_thresholds_detections_counts" iv s e
                  (where_camera cam))
         ∈ (serve (get_daily_data tables now iv sd ed cam)).2).
Proof.
  split.
  - intros Hout. unfold get_daily_data.
    assert ((iv <? 1) || (iv >? 60) = true) as ->; [|done].
    apply orb_true_iff. rewrite Z.ltb_lt, Z.gtb_ltb, Z.ltb_lt. lia.
  - intros Hin s e log Hr.
    unfold serve, get_daily_data, try_except, try_finally.
    unfold mbind at 1, M_bind at 1. rewrite Hr.
    assert ((iv <? 1) || (iv >? 60) = false) as ->.
    { apply orb_false_iff. rewrite Z.ltb_ge, Z.gtb_ltb, Z.ltb_ge. lia. }
    apply daily_range_log in Hr as ->.
    unfold execute, emit, raise, mbind, M_bind, mret, M_ret.
    destruct (run tables now _); cbn [snd app]; apply elem_of_cons; by left.
Qed.

Lemma interval_out_of_range_defaults_witness :
  get_daily_data sample_store sample_now 0 (Some "2024-03-01") None None
  = get_daily_data sample_store sample_now 10 (Some "2024-03-01") None None
  ∧ Execute (BucketSums "jaloli_thresholds_detections_counts" 15
               (at_time 0 0 0) (mkdt 2024 3 1 23 59 59 999999 None) None)
      ∈ (serve (get_daily_data sample_store sample_now 15
                  (Some "2024-03-01") None None)).2.
Proof.
  split.
  - apply (interval_out_of_range_defaults sample_store sample_now 0). lia.
  - apply (proj2 (interval_out_of_range_defaults sample_store sample_now 15
                    (Some "2024-03-01") None None)) with (log := []).
    + lia.
    + reflexivity.
Defined.

(** ** The secondly fallback *)

Lemma fallback_is_not_primary now cam :
  Execute (fallback_query cam) ≠ Execute (primary_query now cam).
Proof. intros Heq. by apply (f_equal unbounded_select) in Heq. Qed.

Lemma from_table_select tables now from since camera limit p :
  run tables now (SelectCounts from since camera limit) = Ok p →
  ∃ rows, tables !! from = Some rows.
Proof.
  unfold run, from_table. destruct (tables !! from); [eauto|done].
Qed.

(** C5: the secondly endpoint issues the unbounded fallback exactly when
    the windowed query returned no row, issues it once, and an empty
    fallback gives an empty success. *)
Theorem secondly_fallback_one_shot tables now cam p :
  run tables now (primary_query now cam) = Ok p →
  (Execute (fallback_query cam) ∈ (serve (get_secondly_data tables now cam)).2
     ↔ p = [])
  ∧ (p ≠ [] →
       serve (get_secondly_data tables now cam)
       = (Ok p, [Execute (primary_query now cam)]))
  ∧ (p = [] → ∃ f,
       run tables now (fallback_query cam) = Ok f
       ∧ serve (get_secondly_data tables now cam)
         = (Ok f, [Execute (primary_query now cam); Execute (fallback_query cam)]))
  ∧ (p = [] → run tables now (fallback_query cam) = Ok [] →
       (serve (get_secondly_data tables now cam)).1 = Ok []).
Proof.
  intros Hp.
  destruct (from_table_select _ _ _ _ _ _ _ Hp) as [rows Hrows].
  assert (∃ f, run tables now (fallback_query cam) = Ok f) as [f Hf].
  { unfold fallback_query, run, from_table. rewrite Hrows. eauto. }
  assert (Hserve : serve (get_secondly_data tables now cam)
    = if (length p =? 0)%nat
      then (Ok f, [Execute (primary_query now cam); Execute (fallback_query cam)])
      else (Ok p, [Execute (primary_query now cam)])).
  { unfold serve, get_secondly_data, try_except, execute.
    unfold mbind at 1, M_bind at 1.
    fold (primary_query now cam). fold (fallback_query cam).
    rewrite Hp. destruct (length p =? 0)%nat; [|done].
    unfold mbind, M_bind. by rewrite Hf. }
  rewrite Hserve. destruct p as [|r p]; cbn [length Nat.eqb fst snd].
  - split; [split; [done|intros _; apply elem_of_cons; right; apply elem_of_cons; by left]|].
    split; [done|]. split; [eauto|].
    intros _ Hf0. rewrite Hf0 in Hf. by inversion Hf.
  - split.
    + split; [|done]. rewrite list_elem_of_singleton.
      intros Heq. by apply fallback_is_not_primary in Heq.
    + split; [done|]. split; done.
Qed.

Lemma secondly_fallback_one_shot_witness :
  run sample_store sample_now (primary_query sample_now None) = Ok []
  ∧ (serve (get_secondly_data sample_store sample_now None)).1
    = Ok (reverse sample_rows).
Proof.
  assert (Hp : run sample_store sample_now (primary_query sample_now None)
               = Ok []) by (by vm_compute).
  split; [exact Hp|].
  destruct (secondly_fallback_one_shot sample_store sample_now None [] Hp)
    as (_ & _ & Hempty & _).
  destruct (Hempty eq_refl) as (f & Hf & Hserve).
  rewrite Hserve. simpl. rewrite <- Hf. by vm_compute.
Defined.


(** ** The daily range *)

Lemma fromisoformat_empty : fromisoformat "" = None.
Proof. reflexivity. Qed.

Lemma fromisoformat_truthy s d : fromisoformat s = Some d → truthy (Some s) = true.
Proof.
  intros Hp. unfold truthy. destruct (decide (s = "")) as [Heq|Hne].
  - rewrite Heq, fromisoformat_empty in Hp. discriminate Hp.
  - rewrite bool_decide_eq_false_2; [reflexivity|exact Hne].
Qed.

Lemma end_of_start_of_day d : end_of_day (start_of_day d) = end_of_day d.
Proof. reflexivity. Qed.

(** The range of a daily request in closed form: each bound is parsed
    when its argument is given, yesterday and the start day otherwise,
    and a bound that does not parse is the 400 of the inner handler. *)
Lemma daily_range_eq now sd ed log :
  daily_range now sd ed log
  = match (if truthy sd then sd ≫= fromisoformat
           else Some (sub_timedelta now (days 1))) with
    | None => (Raise (HTTPException 400 "Invalid date format. Use YYYY-MM-DD"), log)
    | Some d =>
        match (if truthy ed then ed ≫= fromisoformat
               else Some (start_of_day d)) with
        | None =>
            (Raise (HTTPException 400 "Invalid date format. Use YYYY-MM-DD"), log)
        | Some d' => (Ok (start_of_day d, end_of_day d'), log)
        end
    end.
Proof.
  unfold daily_range, try_except, parse_date.
  destruct (truthy sd), (truthy ed), (sd ≫= fromisoformat),
    (ed ≫= fromisoformat); reflexivity.
Qed.

Lemma daily_range_default now log :
  daily_range now None None log
  = (Ok (start_of_day (sub_timedelta now (days 1)),
         end_of_day (sub_timedelta now (days 1))), log).
Proof.
  rewrite daily_range_eq. cbn [truthy]. rewrite end_of_start_of_day. reflexivity.
Qed.


Lemma daily_range_both now s e d d' log :
  fromisoformat s = Some d → fromisoformat e = Some d' →
  daily_range now (Some s) (Some e) log
  = (Ok (start_of_day d, end_of_day d'), log).
Proof.
  intros Hp Hq.
  rewrite daily_range_eq, (fromisoformat_truthy s d Hp), (fromisoformat_truthy e d' Hq).
  cbn [mbind option_bind]. rewrite Hp, Hq. reflexivity.
Qed.


Lemma effective_interval_pos iv : 0 < effective_interval iv.
Proof.
  unfold effective_interval.
  destruct (iv <? 1) eqn:H1; [reflexivity|].
  destruct (iv >? 60) eqn:H2; [reflexivity|].
  cbn [orb]. apply Z.ltb_ge in H1. lia.
Qed.

(** What a successful daily request returns. *)
Lemma get_daily_data_ok tables now iv sd ed cam s e log rows :
  daily_range now sd ed [] = (Ok (s, e), log) →
  (serve (get_daily_data tables now iv sd ed cam)).1 = Ok rows →
  ∃ all, tables !! "jaloli_thresholds_detections_counts" = Some all
    ∧ rows = format_row <$>
        grouped_sums (bucket_of (effective_interval iv))
          (filter (λ r, in_range s e (where_camera cam) r) all).
Proof.
  intros Hr. unfold serve, get_daily_data, try_except, try_finally.
  unfold mbind at 1, M_bind at 1. rewrite Hr.
  fold (effective_interval iv).
  unfold execute, emit, raise, mbind, M_bind, mret, M_ret, run, from_table,
    result_bind.
  destruct (tables !! _) as [all|]; cbn [fst]; [|discriminate].
  intros H. injection H as <-. exists all. split; reflexivity.
Qed.

Lemma elem_of_grouped_sums bucket sel row :
  row ∈ grouped_sums bucket sel →
  ∃ r, r ∈ sel ∧ time_bucket row = bucket (VehicleCount.timestamp r)
       ∧ agg_camera_id row = VehicleCount.camera_id r.
Proof.
  unfold grouped_sums. rewrite elem_of_sort_by, list_elem_of_fmap.
  intros ([k g] & -> & Hin). apply elem_of_group_by in Hin as (_ & r & Hr & Hk).
  exists r. cbn [fst snd sums_of time_bucket agg_camera_id].
  rewrite <- Hk. split; [exact Hr|]. split; reflexivity.
Qed.


(** What the daily endpoint answers on a store that holds the table. *)
Lemma get_daily_data_on_table tables now iv sd ed cam s e log all :
  daily_range now sd ed [] = (Ok (s, e), log) →
  tables !! "jaloli_thresholds_detections_counts" = Some all →
  serve (get_daily_data tables now iv sd ed cam)
  = (Ok (format_row <$>
           grouped_sums (bucket_of (effective_interval iv))
             (filter (λ r, in_range s e (where_camera cam) r) all)),
     log ++ [ Execute (BucketSums "jaloli_thresholds_detections_counts"
                         (effective_interval iv) s e (where_camera cam));
              Close ]).
Proof.
  intros Hr Hall. unfold serve, get_daily_data, try_except, try_finally.
  unfold mbind at 1, M_bind at 1. rewrite Hr.
  fold (effective_interval iv).
  unfold execute, emit, raise, run, from_table. rewrite Hall.
  unfold mbind, M_bind, result_bind, mret, M_ret. cbv beta iota zeta.
  rewrite <- app_assoc. reflexivity.
Qed.






(** ** The summary of a day *)

(** What the summary endpoint answers on a store that holds the table. *)
Lemma get_summary_on_table tables now sd cam d all :
  (if truthy sd then sd ≫= fromisoformat else Some now) = Some d →
  tables !! "jaloli_thresholds_detections_counts" = Some all →
  serve (get_summary tables now sd cam)
  = (let g := filter (λ r, in_range (start_of_day d) (end_of_day (start_of_day d))
                             (where_camera cam) r) all in
     let result := day_totals_of g in
     let peak_hour_result := head (hourly_averages g) in
     Ok {| date := date_isoformat (start_of_day d);
           total_vehicles_of :=
             {| tv_cars := s_total_cars result;
                tv_bikes := s_total_bikes result;
                tv_trucks := s_total_trucks result;
                tv_buses := s_total_buses result;
                tv_autos := s_total_autos result;
                tv_all := s_total_all result |};
           peak_hour := (λ p, strftime_HM (peak_hour_start p)) <$> peak_hour_result;
           peak_hour_count :=
             match peak_hour_result with
             | Some p => if Qeq_bool (hourly_avg p) 0 then 0
                         else round_half_even (hourly_avg p)
             | None => 0
             end;
           record_count := s_record_count result |},
     [ Execute (DayTotals "jaloli_thresholds_detections_counts"
                  (start_of_day d) (end_of_day (start_of_day d)) (where_camera cam));
       Execute (PeakHour "jaloli_thresholds_detections_counts"
                  (start_of_day d) (end_of_day (start_of_day d)) (where_camera cam)) ]).
Proof.
  intros Hd Hall. unfold serve, get_summary, try_except, parse_date.
  destruct (truthy sd).
  - rewrite Hd. unfold execute, mbind, M_bind, mret, M_ret, run, from_table,
      result_bind. rewrite Hall. reflexivity.
  - injection Hd as <-.
    unfold execute, mbind, M_bind, mret, M_ret, run, from_table, result_bind.
    rewrite Hall. reflexivity.
Qed.

(** C7: for a day on which no record matches, the summary reports zero
    for every category and for the total, no peak hour, a peak count of
    zero and a record count of zero. *)
Theorem summary_of_empty_day tables now sd cam d all :
  (if truthy sd then sd ≫= fromisoformat else Some now) = Some d →
  tables !! "jaloli_thresholds_detections_counts" = Some all →
  (∀ r, r ∈ all →
     in_range (start_of_day d) (end_of_day d) (where_camera cam) r = false) →
  (serve (get_summary tables now sd cam)).1
  = Ok {| date := date_isoformat (start_of_day d);
          total_vehicles_of := mk_total_vehicles 0 0 0 0 0 0;
          peak_hour := None;
          peak_hour_count := 0;
          record_count := 0 |}.
Proof.
  intros Hd Hall Hnone.
  rewrite (get_summary_on_table tables now sd cam d all Hd Hall).
  rewrite end_of_start_of_day.
  rewrite (filter_none _ all).
  - reflexivity.
  - intros r Hr Hin. rewrite (Hnone r Hr) in Hin. exact Hin.
Qed.

Lemma summary_of_empty_day_witness :
  (serve (get_summary sample_store sample_now (Some "2024-03-02") None)).1
  = Ok {| date := "2024-03-02";
          total_vehicles_of := mk_total_vehicles 0 0 0 0 0 0;
          peak_hour := None;
          peak_hour_count := 0;
          record_count := 0 |}.
Proof.
  apply (summary_of_empty_day sample_store sample_now (Some "2024-03-02") None
           (mkdt 2024 3 2 0 0 0 0 None) sample_rows).
  - reflexivity.
  - reflexivity.
  - intros r Hr. unfold sample_rows in Hr.
    apply elem_of_cons in Hr as [->|Hr]; [reflexivity|].
    apply elem_of_cons in Hr as [->|Hr]; [reflexivity|].
    apply elem_of_nil in Hr. destruct Hr.
Defined.

(** ** One window, one bucket *)

Lemma in_window_bucket w t :
  window_start w → in_window w t → bucket_of 10 t = w.
Proof.
  intros (Hz & Hm & Hs & Hus) (Htz & Hlo & Hhi).
  apply dt_leb_spec in Hlo, Hhi.
  destruct w as [wy wmo wd wh wmi ws wus wtz], t as [ty tmo td th tmi ts tus ttz].
  unfold dt_compare, dt_fields, window_end, replace_time in Hlo, Hhi.
  cbn [year month day hour minute second microsecond tzinfo] in *.
  subst ws wus wtz ttz.
  destruct (lex_compare_squeeze _ _ _ _ _ Hlo Hhi) as (-> & Hlo1 & Hhi1).
  destruct (lex_compare_squeeze _ _ _ _ _ Hlo1 Hhi1) as (-> & Hlo2 & Hhi2).
  destruct (lex_compare_squeeze _ _ _ _ _ Hlo2 Hhi2) as (-> & Hlo3 & Hhi3).
  destruct (lex_compare_squeeze _ _ _ _ _ Hlo3 Hhi3) as (-> & Hlo4 & Hhi4).
  apply lex_compare_head in Hlo4, Hhi4.
  unfold bucket_of, replace_time.
  cbn [year month day hour minute second microsecond tzinfo].
  assert (tmi / 10 * 10 = wmi) as ->; [|reflexivity].
  pose proof (Z.div_mod tmi 10 ltac:(lia)) as Ht.
  pose proof (Z.mod_pos_bound tmi 10 ltac:(lia)) as Htb.
  pose proof (Z.div_mod wmi 10 ltac:(lia)) as Hw.
  rewrite Hm in Hw. lia.
Qed.

Lemma sql_sum_nonempty (xs : list Z) : xs ≠ [] → sql_sum xs = Some (sum_Z xs).
Proof. destruct xs; [congruence|reflexivity]. Qed.

(** C8 (amended): a non-empty set of records of one camera inside one
    ten-minute window that starts on a multiple of ten minutes,
    aggregated with interval 10 over a range that contains the window,
    gives exactly one bucket, stamped with the window start, whose six
    fields are the sums of the stored fields. *)
Theorem one_window_one_bucket tables now sd ed cam recs c w s e log :
  tables !! "jaloli_thresholds_detections_counts" = Some recs →
  recs ≠ [] →
  window_start w →
  (∀ r, r ∈ recs →
     VehicleCount.camera_id r = c ∧ in_window w (VehicleCount.timestamp r)) →
  daily_range now sd ed [] = (Ok (s, e), log) →
  ts_ge w s = true → ts_le (window_end w) e = true →
  where_camera cam = None ∨ where_camera cam = Some c →
  (serve (get_daily_data tables now 10 sd ed cam)).1
  = Ok [ {| VehicleCountResponse.timestamp := w;
            VehicleCountResponse.camera_id := c;
            VehicleCountResponse.car := sum_Z (VehicleCount.car <$> recs);
            VehicleCountResponse.bike := sum_Z (VehicleCount.bike <$> recs);
            VehicleCountResponse.truck := sum_Z (VehicleCount.truck <$> recs);
            VehicleCountResponse.bus := sum_Z (VehicleCount.bus <$> recs);
            VehicleCountResponse.auto := sum_Z (VehicleCount.auto <$> recs);
            VehicleCountResponse.total := sum_Z (VehicleCount.total <$> recs) |} ].
Proof.
  intros Hall Hne Hw Hrecs Hr Hlo Hhi Hcam.
  rewrite (get_daily_data_on_table tables now 10 sd ed cam s e log recs Hr Hall).
  cbn [fst]. f_equal. change (effective_interval 10) with 10.
  rewrite (filter_all _ recs).
  2:{ intros r Hin. destruct (Hrecs r Hin) as (Hc & Htz & Hl & Hh).
      apply Is_true_true. unfold in_range. rewrite !andb_true_iff.
      split; [split|].
      - unfold ts_ge in *. by apply dt_leb_trans with w.
      - unfold ts_le in *. by apply dt_leb_trans with (window_end w).
      - destruct Hcam as [-> | ->]; [reflexivity|].
        unfold camera_matches. by apply bool_decide_eq_true. }
  assert (Hkey : ∀ r, r ∈ recs →
            (bucket_of 10 (VehicleCount.timestamp r), VehicleCount.camera_id r)
            = (w, c)).
  { intros r Hin. destruct (Hrecs r Hin) as (Hc & Hwin).
    by rewrite (in_window_bucket w _ Hw Hwin), Hc. }
  unfold grouped_sums, group_by.
  rewrite (remove_dups_const (w, c)).
  - cbn [fmap list_fmap sort_by foldr insert_by fst snd].
    rewrite (filter_all _ recs) by exact Hkey.
    unfold format_row, sums_of.
    cbn [time_bucket agg_camera_id sum_car sum_bike sum_truck sum_bus
         sum_auto sum_total fst snd].
    assert (Hmap : ∀ f : VehicleCount.t → Z, f <$> recs ≠ []).
    { intros f Hf. apply fmap_nil_inv in Hf. contradiction. }
    rewrite !sql_sum_nonempty by apply Hmap. reflexivity.
  - intros Hnil. apply fmap_nil_inv in Hnil. contradiction.
  - intros k Hk. apply list_elem_of_fmap in Hk as (r & -> & Hin).
    by apply Hkey.
Qed.

Lemma one_window_one_bucket_witness :
  (serve (get_daily_data window_store sample_now 10 (Some "2024-03-01") None None)).1
  = Ok [ VehicleCountResponse.mk (at_time 10 20 0) "camA" 5 1 1 1 3 16 ].
Proof.
  apply (one_window_one_bucket window_store sample_now (Some "2024-03-01") None
           None window_rows "camA" (at_time 10 20 0)
           (mkdt 2024 3 1 0 0 0 0 None) (mkdt 2024 3 1 23 59 59 999999 None) []).
  - reflexivity.
  - discriminate.
  - repeat split.
  - intros r Hr. unfold window_rows in Hr.
    apply elem_of_cons in Hr as [->|Hr]; [repeat split|].
    apply elem_of_cons in Hr as [->|Hr]; [repeat split|].
    apply elem_of_cons in Hr as [->|Hr]; [repeat split|].
    apply elem_of_nil in Hr. destruct Hr.
  - reflexivity.
  - reflexivity.
  - reflexivity.
  - left. reflexivity.
Defined.

(** C8 as stated fails: two records of one camera stamped 10:05 and
    10:12 lie within a single ten-minute window, from 10:05 to 10:15,
    and are returned as two buckets, 10:00 and 10:10; and a set of no
    records gives no bucket. *)
Lemma unaligned_window_two_buckets :
  Forall (λ r, VehicleCount.camera_id r = "camA"
               ∧ dt_leb (at_time 10 5 0) (VehicleCount.timestamp r) = true
               ∧ dt_ltb (VehicleCount.timestamp r) (at_time 10 15 0) = true)
    straddling_rows
  ∧ (serve (get_daily_data straddling_store sample_now 10
              (Some "2024-03-01") None None)).1
    = Ok [ VehicleCountResponse.mk (at_time 10 0 0) "camA" 3 0 0 0 1 4;
           VehicleCountResponse.mk (at_time 10 10 0) "camA" 2 1 0 0 0 3 ]
  ∧ (serve (get_daily_data {[ VehicleCount.tablename := [] ]} sample_now 10
              (Some "2024-03-01") None None)).1 = Ok [].
Proof. split; [repeat constructor|split; reflexivity]. Qed.

(** ** Date arguments with a time of day *)





(** * Further properties of the endpoints *)

(** ** Order of the results *)

Lemma lex_compare_antisym a b : lex_compare b a = CompOpp (lex_compare a b).
Proof.
  revert b. induction a as [|x a IH]; intros [|y b]; cbn [lex_compare]; try reflexivity.
  rewrite (Z.compare_antisym x y).
  destruct (x ?= y); cbn [CompOpp]; [apply IH|reflexivity|reflexivity].
Qed.

Lemma dt_leb_total a b : dt_leb a b = true ∨ dt_leb b a = true.
Proof.
  unfold dt_leb, dt_compare.
  rewrite (lex_compare_antisym (dt_fields a) (dt_fields b)).
  destruct (lex_compare (dt_fields a) (dt_fields b)); cbn [CompOpp]; auto.
Qed.

Section SortBy.
Context {A : Type} (leb : A → A → bool).
Hypothesis leb_total : ∀ a b, leb a b = true ∨ leb b a = true.

Lemma insert_by_hd x y l :
  leb y x = true → HdRel (λ a b, leb a b = true) y l →
  HdRel (λ a b, leb a b = true) y (insert_by leb x l).
Proof.
  intros Hyx Hhd. destruct l as [|z l]; cbn [insert_by].
  - by constructor.
  - destruct (leb x z); constructor; [exact Hyx|].
    by inversion Hhd.
Qed.

Lemma insert_by_sorted x l :
  Sorted (λ a b, leb a b = true) l →
  Sorted (λ a b, leb a b = true) (insert_by leb x l).
Proof.
  induction 1 as [|y l Hs IH Hhd]; cbn [insert_by].
  - by repeat constructor.
  - destruct (leb x y) eqn:Hxy.
    + constructor; [by constructor|by constructor].
    + constructor; [exact IH|]. apply insert_by_hd; [|exact Hhd].
      destruct (leb_total x y) as [H|H]; [congruence|exact H].
Qed.

Lemma sort_by_sorted l : Sorted (λ a b, leb a b = true) (sort_by leb l).
Proof.
  induction l as [|x l IH]; cbn [sort_by foldr]; [constructor|].
  by apply insert_by_sorted.
Qed.

End SortBy.

Lemma insert_by_perm {A} (leb : A → A → bool) x l : insert_by leb x l ≡ₚ x :: l.
Proof.
  induction l as [|y l IH]; cbn [insert_by]; [reflexivity|].
  destruct (leb x y); [reflexivity|]. rewrite IH. apply Permutation_swap.
Qed.

Lemma sort_by_perm {A} (leb : A → A → bool) l : sort_by leb l ≡ₚ l.
Proof.
  induction l as [|x l IH]; cbn [sort_by foldr]; [reflexivity|].
  fold (sort_by leb l). by rewrite insert_by_perm, IH.
Qed.

Lemma Sorted_fmap {A B} (f : A → B) (R : B → B → Prop) l :
  Sorted (λ a b, R (f a) (f b)) l → Sorted R (f <$> l).
Proof.
  induction 1 as [|x l Hs IH Hhd]; cbn; constructor; [exact IH|].
  destruct Hhd; cbn; by constructor.
Qed.

Lemma Sorted_take {A} (R : A → A → Prop) n l : Sorted R l → Sorted R (take n l).
Proof.
  intros Hs. revert n. induction Hs as [|x l Hs IH Hhd]; intros [|n]; cbn;
    try constructor; [apply IH|].
  destruct Hhd; destruct n; cbn; by constructor.
Qed.

(** ** What the endpoints answer on a store that holds the table *)

Lemma get_secondly_data_on_table tables now cam all :
  tables !! VehicleCount.tablename = Some all →
  serve (get_secondly_data tables now cam)
  = let select since :=
      take 60
        (sort_by (λ a b, dt_leb (VehicleCount.timestamp b) (VehicleCount.timestamp a))
           (filter (λ r, match since with
                         | Some t => ts_ge (VehicleCount.timestamp r) t
                         | None => true
                         end && camera_matches (where_camera cam) r) all)) in
    if (length (select (Some (sub_timedelta now (minutes 1)))) =? 0)%nat
    then (Ok (select None),
          [Execute (primary_query now cam); Execute (fallback_query cam)])
    else (Ok (select (Some (sub_timedelta now (minutes 1)))),
          [Execute (primary_query now cam)]).
Proof.
  intros Hall. unfold serve, get_secondly_data, try_except, execute.
  unfold run, from_table. rewrite Hall.
  unfold mbind, M_bind, result_bind, mret, M_ret. cbv beta iota zeta.
  destruct (length _ =? 0)%nat; reflexivity.
Qed.

Lemma get_hourly_data_on_table tables now cam all :
  tables !! "jaloli_thresholds_detections_counts" = Some all →
  serve (get_hourly_data tables now cam)
  = match min_ts (VehicleCount.timestamp <$>
                    filter (λ r, dt_leb (start_of_day now) (VehicleCount.timestamp r)
                                 && camera_matches (where_camera cam) r) all) with
    | None =>
        (Ok [], [Execute (MinTimestampToday "jaloli_thresholds_detections_counts"
                            (where_camera cam))])
    | Some start_time =>
        (Ok (format_row <$>
               grouped_sums date_trunc_hour
                 (filter (λ r, ts_ge (VehicleCount.timestamp r) start_time
                               && dt_leb (VehicleCount.timestamp r)
                                    (replace_time now 21 0 0 0)
                               && camera_matches (where_camera cam) r) all)),
         [Execute (MinTimestampToday "jaloli_thresholds_detections_counts"
                     (where_camera cam));
          Execute (HourlySums "jaloli_thresholds_detections_counts"
                     start_time (replace_minute now) (where_camera cam))])
    end.
Proof.
  intros Hall. unfold serve, get_hourly_data, try_except, execute.
  unfold run, from_table. rewrite Hall.
  unfold mbind, M_bind, result_bind, mret, M_ret. cbv beta iota zeta.
  destruct (min_ts _); reflexivity.
Qed.

(** A daily request that succeeds had a valid range and found the table. *)
Lemma get_daily_data_inv tables now iv sd ed cam rows :
  (serve (get_daily_data tables now iv sd ed cam)).1 = Ok rows →
  ∃ s e all,
    daily_range now sd ed [] = (Ok (s, e), [])
    ∧ tables !! "jaloli_thresholds_detections_counts" = Some all
    ∧ rows = format_row <$>
        grouped_sums (bucket_of (effective_interval iv))
          (filter (λ r, in_range s e (where_camera cam) r) all).
Proof.
  intros Hok.
  destruct (daily_range now sd ed []) as [[[s e]|err] log] eqn:Hr.
  - pose proof (daily_range_log _ _ _ _ _ _ Hr) as ->.
    destruct (get_daily_data_ok _ _ _ _ _ _ _ _ _ _ Hr Hok) as (all & Hall & ->).
    by exists s, e, all.
  - exfalso. revert Hok. unfold serve, get_daily_data, try_except.
    unfold mbind at 1, M_bind at 1. rewrite Hr. discriminate.
Qed.

Lemma get_hourly_data_inv tables now cam rows :
  (serve (get_hourly_data tables now cam)).1 = Ok rows →
  ∃ all, tables !! "jaloli_thresholds_detections_counts" = Some all.
Proof.
  destruct (tables !! "jaloli_thresholds_detections_counts") as [all|] eqn:Hall;
    [eauto|].
  unfold serve, get_hourly_data, try_except, execute, run, from_table.
  rewrite Hall. discriminate.
Qed.

Lemma get_secondly_data_inv tables now cam rows :
  (serve (get_secondly_data tables now cam)).1 = Ok rows →
  ∃ all, tables !! VehicleCount.tablename = Some all.
Proof.
  destruct (tables !! VehicleCount.tablename) as [all|] eqn:Hall; [eauto|].
  unfold serve, get_secondly_data, try_except, execute, run, from_table.
  rewrite Hall. discriminate.
Qed.

Lemma Ok_inj {A} (a b : A) : Ok a = Ok b → a = b.
Proof. intros H. by injection H. Qed.

(** ** The camera filter *)

Lemma where_camera_some c : c ≠ "" → where_camera (Some c) = Some c.
Proof.
  intros Hc. unfold where_camera, truthy.
  rewrite bool_decide_eq_false_2 by exact Hc. reflexivity.
Qed.

Lemma camera_matches_some c r :
  camera_matches (Some c) r = true → VehicleCount.camera_id r = c.
Proof. unfold camera_matches. apply bool_decide_eq_true. Qed.

(** A request for one camera never returns a record or a bucket of
    another camera, on the secondly, hourly and daily endpoints. *)
Theorem camera_filter_excludes_others tables now iv sd ed c :
  c ≠ "" →
  (∀ rows r, (serve (get_secondly_data tables now (Some c))).1 = Ok rows →
     r ∈ rows → VehicleCount.camera_id r = c)
  ∧ (∀ rows resp, (serve (get_hourly_data tables now (Some c))).1 = Ok rows →
       resp ∈ rows → VehicleCountResponse.camera_id resp = c)
  ∧ (∀ rows resp, (serve (get_daily_data tables now iv sd ed (Some c))).1 = Ok rows →
       resp ∈ rows → VehicleCountResponse.camera_id resp = c).
Proof.
  intros Hc. pose proof (where_camera_some c Hc) as Hw. split; [|split].
  - intros rows r Hok Hin.
    destruct (get_secondly_data_inv _ _ _ _ Hok) as [all Hall].
    rewrite (get_secondly_data_on_table _ _ _ all Hall) in Hok.
    cbv zeta in Hok. rewrite Hw in Hok.
    assert (Hsel : ∀ since, r ∈ take 60
        (sort_by (λ a b, dt_leb (VehicleCount.timestamp b) (VehicleCount.timestamp a))
           (filter (λ r, match since with
                         | Some t => ts_ge (VehicleCount.timestamp r) t
                         | None => true
                         end && camera_matches (Some c) r) all)) →
        VehicleCount.camera_id r = c).
    { intros since Hr. apply subseteq_take in Hr.
      apply elem_of_sort_by, list_elem_of_filter in Hr as [Hp _].
      apply andb_prop_elim in Hp as [_ Hp]. apply Is_true_true in Hp.
      by apply camera_matches_some. }
    destruct (length _ =? 0)%nat; unfold fst in Hok; apply Ok_inj in Hok;
      subst rows.
    + exact (Hsel None Hin).
    + exact (Hsel (Some (sub_timedelta now (minutes 1))) Hin).
  - intros rows resp Hok Hin.
    destruct (get_hourly_data_inv _ _ _ _ Hok) as [all Hall].
    rewrite (get_hourly_data_on_table _ _ _ all Hall) in Hok. rewrite Hw in Hok.
    destruct (min_ts _) as [first|]; unfold fst in Hok; apply Ok_inj in Hok;
      subst rows.
    + apply list_elem_of_fmap in Hin as (row & -> & Hrow).
      apply elem_of_grouped_sums in Hrow as (r & Hsel & _ & Hcam).
      apply list_elem_of_filter in Hsel as [Hp _].
      apply andb_prop_elim in Hp as [_ Hp]. apply Is_true_true in Hp.
      cbn [format_row VehicleCountResponse.camera_id]. rewrite Hcam.
      by apply camera_matches_some.
    + by apply elem_of_nil in Hin.
  - intros rows resp Hok Hin.
    destruct (get_daily_data_inv _ _ _ _ _ _ _ Hok) as (s & e & all & _ & _ & ->).
    rewrite Hw in Hin.
    apply list_elem_of_fmap in Hin as (row & -> & Hrow).
    apply elem_of_grouped_sums in Hrow as (r & Hsel & _ & Hcam).
    apply list_elem_of_filter in Hsel as [Hp _]. unfold in_range in Hp.
    apply andb_prop_elim in Hp as [_ Hp]. apply Is_true_true in Hp.
    cbn [format_row VehicleCountResponse.camera_id]. rewrite Hcam.
    by apply camera_matches_some.
Qed.

Lemma camera_filter_excludes_others_witness :
  VehicleCountResponse.camera_id
    (VehicleCountResponse.mk (at_time 8 10 0) "camA" 3 4 5 2 1 15) = "camA".
Proof.
  apply (proj2 (proj2 (camera_filter_excludes_others sample_store sample_now 10
                         (Some "2024-03-01") None "camA" ltac:(discriminate)))
         [ VehicleCountResponse.mk (at_time 8 10 0) "camA" 3 4 5 2 1 15;
           VehicleCountResponse.mk (at_time 10 10 0) "camA" 3 0 5 0 1 9 ]).
  - reflexivity.
  - apply elem_of_cons. by left.
Defined.

(** ** The hourly endpoint *)

Lemma foldr_dt_min x l :
  (foldr dt_min x l = x ∨ foldr dt_min x l ∈ l)
  ∧ dt_leb (foldr dt_min x l) x = true
  ∧ ∀ y, y ∈ l → dt_leb (foldr dt_min x l) y = true.
Proof.
  induction l as [|z l (Hin & Hx & Hl)]; cbn [foldr].
  - split; [by left|]. split; [apply dt_leb_refl|].
    intros y Hy. by apply elem_of_nil in Hy.
  - set (m := foldr dt_min x l) in *. unfold dt_min.
    destruct (dt_leb z m) eqn:Hz.
    + split; [right; by left|]. split.
      * by apply dt_leb_trans with m.
      * intros y Hy. apply elem_of_cons in Hy as [->|Hy]; [apply dt_leb_refl|].
        apply dt_leb_trans with m; [exact Hz|by apply Hl].
    + split; [destruct Hin as [Hin|Hin]; [by left|right; by right]|].
      split; [exact Hx|].
      intros y Hy. apply elem_of_cons in Hy as [->|Hy]; [|by apply Hl].
      destruct (dt_leb_total z m) as [H|H]; [congruence|exact H].
Qed.

(** [MIN(timestamp)] is one of the timestamps and none is earlier. *)
Lemma min_ts_spec l m :
  min_ts l = Some m → m ∈ l ∧ ∀ y, y ∈ l → dt_leb m y = true.
Proof.
  destruct l as [|x l]; [discriminate|]. cbn [min_ts]. intros H.
  apply (inj Some) in H. subst m.
  destruct (foldr_dt_min x l) as (Hin & Hx & Hl). split.
  - destruct Hin as [->|Hin]; [by left|by right].
  - intros y Hy. apply elem_of_cons in Hy as [->|Hy]; [exact Hx|by apply Hl].
Qed.

(** When no record of today passes the camera filter the hourly endpoint
    answers an empty list after the one [MIN] query: there is no fallback
    to older data. *)
Theorem hourly_without_data_today tables now cam all :
  tables !! "jaloli_thresholds_detections_counts" = Some all →
  (∀ r, r ∈ all →
     dt_leb (start_of_day now) (VehicleCount.timestamp r)
     && camera_matches (where_camera cam) r = false) →
  serve (get_hourly_data tables now cam)
  = (Ok [], [Execute (MinTimestampToday "jaloli_thresholds_detections_counts"
                        (where_camera cam))]).
Proof.
  intros Hall Hnone. rewrite (get_hourly_data_on_table _ _ _ all Hall).
  rewrite (filter_none _ all).
  - reflexivity.
  - intros r Hr Hp. rewrite (Hnone r Hr) in Hp. exact Hp.
Qed.

Lemma hourly_without_data_today_witness :
  serve (get_hourly_data sample_store (mkdt 2024 3 2 9 0 0 0 None) None)
  = (Ok [], [Execute (MinTimestampToday "jaloli_thresholds_detections_counts"
                        None)]).
Proof.
  apply (hourly_without_data_today sample_store (mkdt 2024 3 2 9 0 0 0 None)
           None sample_rows eq_refl).
  intros r Hr. unfold sample_rows in Hr.
  apply elem_of_cons in Hr as [->|Hr]; [reflexivity|].
  apply elem_of_cons in Hr as [->|Hr]; [reflexivity|].
  apply elem_of_nil in Hr. destruct Hr.
Defined.

(** Every hourly bucket is the hour of a record that passes the camera
    filter and lies between the earliest such record of today and 21:00
    of today; the start of the current hour is no bound. *)
Theorem hourly_bucket_range tables now cam rows resp :
  (serve (get_hourly_data tables now cam)).1 = Ok rows →
  resp ∈ rows →
  ∃ all first r,
    tables !! "jaloli_thresholds_detections_counts" = Some all
    ∧ (∃ r0, r0 ∈ all ∧ VehicleCount.timestamp r0 = first
             ∧ dt_leb (start_of_day now) first = true
             ∧ camera_matches (where_camera cam) r0 = true)
    ∧ (∀ r', r' ∈ all →
         dt_leb (start_of_day now) (VehicleCount.timestamp r') = true →
         camera_matches (where_camera cam) r' = true →
         dt_leb first (VehicleCount.timestamp r') = true)
    ∧ r ∈ all
    ∧ camera_matches (where_camera cam) r = true
    ∧ ts_ge (VehicleCount.timestamp r) first = true
    ∧ dt_leb (VehicleCount.timestamp r) (replace_time now 21 0 0 0) = true
    ∧ VehicleCountResponse.timestamp resp
      = date_trunc_hour (VehicleCount.timestamp r)
    ∧ VehicleCountResponse.camera_id resp = VehicleCount.camera_id r.
Proof.
  intros Hok Hin.
  destruct (get_hourly_data_inv _ _ _ _ Hok) as [all Hall].
  rewrite (get_hourly_data_on_table _ _ _ all Hall) in Hok.
  destruct (min_ts _) as [first|] eqn:Hmin; unfold fst in Hok;
    apply Ok_inj in Hok; subst rows; [|by apply elem_of_nil in Hin].
  apply min_ts_spec in Hmin as [Hfirst Hleast].
  apply list_elem_of_fmap in Hfirst as (r0 & Hr0 & Hsel0).
  apply list_elem_of_filter in Hsel0 as [Hp0 Hmem0].
  apply andb_prop_elim in Hp0 as [Hday0 Hcam0]. apply Is_true_true in Hday0, Hcam0.
  apply list_elem_of_fmap in Hin as (row & -> & Hrow).
  apply elem_of_grouped_sums in Hrow as (r & Hsel & Hb & Hc).
  apply list_elem_of_filter in Hsel as [Hp Hmem].
  apply andb_prop_elim in Hp as [Hp Hcam]. apply andb_prop_elim in Hp as [Hge Hle].
  apply Is_true_true in Hge, Hle, Hcam.
  exists all, first, r. split; [exact Hall|]. split.
  { exists r0. rewrite Hr0. repeat split; assumption. }
  split.
  { intros r' Hr' Hday Hcam'. apply Hleast. apply list_elem_of_fmap.
    exists r'. split; [reflexivity|]. apply list_elem_of_filter. split; [|exact Hr'].
    apply Is_true_true. by rewrite Hday, Hcam'. }
  repeat split; assumption.
Qed.

Lemma hourly_bucket_range_witness :
  ∃ all first r,
    sample_store !! "jaloli_thresholds_detections_counts" = Some all
    ∧ (∃ r0, r0 ∈ all ∧ VehicleCount.timestamp r0 = first
             ∧ dt_leb (start_of_day sample_now) first = true
             ∧ camera_matches (where_camera None) r0 = true)
    ∧ (∀ r', r' ∈ all →
         dt_leb (start_of_day sample_now) (VehicleCount.timestamp r') = true →
         camera_matches (where_camera None) r' = true →
         dt_leb first (VehicleCount.timestamp r') = true)
    ∧ r ∈ all
    ∧ camera_matches (where_camera None) r = true
    ∧ ts_ge (VehicleCount.timestamp r) first = true
    ∧ dt_leb (VehicleCount.timestamp r) (replace_time sample_now 21 0 0 0) = true
    ∧ at_time 10 0 0 = date_trunc_hour (VehicleCount.timestamp r)
    ∧ "camA" = VehicleCount.camera_id r.
Proof.
  apply (hourly_bucket_range sample_store sample_now None
           [ VehicleCountResponse.mk (at_time 8 0 0) "camA" 3 4 5 2 1 15;
             VehicleCountResponse.mk (at_time 10 0 0) "camA" 3 0 5 0 1 9 ]
           (VehicleCountResponse.mk (at_time 10 0 0) "camA" 3 0 5 0 1 9)).
  - reflexivity.
  - apply elem_of_cons. right. apply elem_of_cons. by left.
Defined.

(** ** The secondly endpoint *)

(** The secondly endpoint never returns more than 60 records, returns
    them newest first, and returns only stored records. *)
Theorem secondly_at_most_60_newest_first tables now cam rows :
  (serve (get_secondly_data tables now cam)).1 = Ok rows →
  (length rows ≤ 60)%nat
  ∧ Sorted (λ a b, dt_leb (VehicleCount.timestamp b) (VehicleCount.timestamp a) = true)
      rows
  ∧ ∃ all, tables !! VehicleCount.tablename = Some all ∧ ∀ r, r ∈ rows → r ∈ all.
Proof.
  intros Hok. destruct (get_secondly_data_inv _ _ _ _ Hok) as [all Hall].
  rewrite (get_secondly_data_on_table _ _ _ all Hall) in Hok. cbv zeta in Hok.
  assert (Hsel : ∀ since,
    let rows := take 60
        (sort_by (λ a b, dt_leb (VehicleCount.timestamp b) (VehicleCount.timestamp a))
           (filter (λ r, match since with
                         | Some t => ts_ge (VehicleCount.timestamp r) t
                         | None => true
                         end && camera_matches (where_camera cam) r) all)) in
    (length rows ≤ 60)%nat
    ∧ Sorted (λ a b, dt_leb (VehicleCount.timestamp b) (VehicleCount.timestamp a) = true)
        rows
    ∧ ∀ r, r ∈ rows → r ∈ all).
  { intros since rows0. subst rows0. split; [rewrite length_take; lia|]. split.
    - apply Sorted_take.
      apply (sort_by_sorted
               (λ a b, dt_leb (VehicleCount.timestamp b) (VehicleCount.timestamp a))).
      intros a b. destruct (dt_leb_total (VehicleCount.timestamp a)
                              (VehicleCount.timestamp b)); auto.
    - intros r Hr. apply subseteq_take in Hr.
      by apply elem_of_sort_by, list_elem_of_filter in Hr as [_ Hr]. }
  destruct (length _ =? 0)%nat; unfold fst in Hok; apply Ok_inj in Hok;
    subst rows.
  - destruct (Hsel None) as (Hlen & Hsort & Hin). eauto.
  - destruct (Hsel (Some (sub_timedelta now (minutes 1)))) as (Hlen & Hsort & Hin).
    eauto.
Qed.

Lemma secondly_at_most_60_newest_first_witness :
  (length (reverse sample_rows) ≤ 60)%nat.
Proof.
  apply (secondly_at_most_60_newest_first sample_store sample_now None
           (reverse sample_rows)).
  reflexivity.
Defined.

(** ** The daily endpoint *)

(** Hourly and daily results are in ascending order of bucket start. *)
Theorem buckets_ascending tables now iv sd ed cam :
  (∀ rows, (serve (get_hourly_data tables now cam)).1 = Ok rows →
     Sorted (λ a b, dt_leb (VehicleCountResponse.timestamp a)
                      (VehicleCountResponse.timestamp b) = true) rows)
  ∧ (∀ rows, (serve (get_daily_data tables now iv sd ed cam)).1 = Ok rows →
       Sorted (λ a b, dt_leb (VehicleCountResponse.timestamp a)
                        (VehicleCountResponse.timestamp b) = true) rows).
Proof.
  assert (Hsorted : ∀ bucket sel,
    Sorted (λ a b, dt_leb (VehicleCountResponse.timestamp a)
                     (VehicleCountResponse.timestamp b) = true)
      (format_row <$> grouped_sums bucket sel)).
  { intros bucket sel. apply Sorted_fmap. unfold grouped_sums.
    apply (sort_by_sorted (λ a b, dt_leb (time_bucket a) (time_bucket b))).
    intros a b. apply dt_leb_total. }
  split.
  - intros rows Hok. destruct (get_hourly_data_inv _ _ _ _ Hok) as [all Hall].
    rewrite (get_hourly_data_on_table _ _ _ all Hall) in Hok.
    destruct (min_ts _); unfold fst in Hok; apply Ok_inj in Hok; subst rows.
    + apply Hsorted.
    + constructor.
  - intros rows Hok.
    destruct (get_daily_data_inv _ _ _ _ _ _ _ Hok) as (s & e & all & _ & _ & ->).
    apply Hsorted.
Qed.

Lemma fmap_id_ext {A} (f : A → A) (l : list A) : (∀ x, f x = x) → f <$> l = l.
Proof.
  intros Hf. induction l as [|x l IH]; [reflexivity|].
  cbn [fmap list_fmap]. rewrite Hf. f_equal. exact IH.
Qed.

(** The rows of a grouped query carry the distinct keys, one each. *)
Lemma grouped_sums_keys bucket sel :
  (λ row, (time_bucket row, agg_camera_id row)) <$> grouped_sums bucket sel
  ≡ₚ remove_dups ((λ r, (bucket (VehicleCount.timestamp r),
                         VehicleCount.camera_id r)) <$> sel).
Proof.
  unfold grouped_sums. rewrite sort_by_perm. unfold group_by.
  rewrite <- !list_fmap_compose. rewrite fmap_id_ext; [reflexivity|].
  intros [tb c]. reflexivity.
Qed.

Lemma default_sql_sum xs : default 0 (sql_sum xs) = sum_Z xs.
Proof. by destruct xs. Qed.

(** Each daily bucket carries, field by field, the sum of the stored
    values of the records of its range, bucket and camera (the stored
    total is summed, not recomputed), there is at least one such record,
    and no two rows share bucket start and camera. *)
Theorem daily_bucket_sums tables now iv sd ed cam rows :
  (serve (get_daily_data tables now iv sd ed cam)).1 = Ok rows →
  ∃ s e all,
    daily_range now sd ed [] = (Ok (s, e), [])
    ∧ tables !! "jaloli_thresholds_detections_counts" = Some all
    ∧ NoDup ((λ x, (VehicleCountResponse.timestamp x,
                    VehicleCountResponse.camera_id x)) <$> rows)
    ∧ ∀ resp, resp ∈ rows →
        let g := filter (λ r, (bucket_of (effective_interval iv)
                                 (VehicleCount.timestamp r),
                               VehicleCount.camera_id r)
                              = (VehicleCountResponse.timestamp resp,
                                 VehicleCountResponse.camera_id resp))
                   (filter (λ r, in_range s e (where_camera cam) r) all) in
        g ≠ []
        ∧ VehicleCountResponse.car resp = sum_Z (VehicleCount.car <$> g)
        ∧ VehicleCountResponse.bike resp = sum_Z (VehicleCount.bike <$> g)
        ∧ VehicleCountResponse.truck resp = sum_Z (VehicleCount.truck <$> g)
        ∧ VehicleCountResponse.bus resp = sum_Z (VehicleCount.bus <$> g)
        ∧ VehicleCountResponse.auto resp = sum_Z (VehicleCount.auto <$> g)
        ∧ VehicleCountResponse.total resp = sum_Z (VehicleCount.total <$> g).
Proof.
  intros Hok.
  destruct (get_daily_data_inv _ _ _ _ _ _ _ Hok) as (s & e & all & Hr & Hall & ->).
  exists s, e, all. split; [exact Hr|]. split; [exact Hall|].
  set (sel := filter (λ r, in_range s e (where_camera cam) r) all).
  set (key := λ r : VehicleCount.t,
         (bucket_of (effective_interval iv) (VehicleCount.timestamp r),
          VehicleCount.camera_id r)).
  split.
  - rewrite <- list_fmap_compose.
    change (NoDup ((λ row, (time_bucket row, agg_camera_id row)) <$>
                     grouped_sums (bucket_of (effective_interval iv)) sel)).
    rewrite grouped_sums_keys. apply NoDup_remove_dups.
  - intros resp Hin.
    apply list_elem_of_fmap in Hin as (row & -> & Hrow).
    unfold grouped_sums in Hrow.
    apply elem_of_sort_by, list_elem_of_fmap in Hrow as ([k g] & -> & Hg).
    apply elem_of_group_by in Hg as (-> & r & Hr' & Hk).
    cbn [format_row sums_of fst snd VehicleCountResponse.timestamp
         VehicleCountResponse.camera_id VehicleCountResponse.car
         VehicleCountResponse.bike VehicleCountResponse.truck
         VehicleCountResponse.bus VehicleCountResponse.auto
         VehicleCountResponse.total time_bucket agg_camera_id sum_car sum_bike
         sum_truck sum_bus sum_auto sum_total].
    rewrite !default_sql_sum. rewrite <- surjective_pairing.
    split; [|repeat split].
    intros Hnil. apply (elem_of_nil r). rewrite <- Hnil.
    apply list_elem_of_filter. split; [exact Hk|exact Hr'].
Qed.

Lemma buckets_ascending_witness :
  Sorted (λ a b, dt_leb (VehicleCountResponse.timestamp a)
                   (VehicleCountResponse.timestamp b) = true)
    [ VehicleCountResponse.mk (at_time 8 10 0) "camA" 3 4 5 2 1 15;
      VehicleCountResponse.mk (at_time 10 10 0) "camA" 3 0 5 0 1 9 ].
Proof.
  apply (proj2 (buckets_ascending sample_store sample_now 10
                  (Some "2024-03-01") None None)).
  reflexivity.
Defined.

Lemma daily_bucket_sums_witness :
  ∃ s e all,
    daily_range sample_now (Some "2024-03-01") None [] = (Ok (s, e), [])
    ∧ window_store !! "jaloli_thresholds_detections_counts" = Some all
    ∧ NoDup ((λ x, (VehicleCountResponse.timestamp x,
                    VehicleCountResponse.camera_id x)) <$>
               [ VehicleCountResponse.mk (at_time 10 20 0) "camA" 5 1 1 1 3 16 ])
    ∧ ∀ resp, resp ∈ [ VehicleCountResponse.mk (at_time 10 20 0) "camA" 5 1 1 1 3 16 ] →
        let g := filter (λ r, (bucket_of (effective_interval 10)
                                 (VehicleCount.timestamp r),
                               VehicleCount.camera_id r)
                              = (VehicleCountResponse.timestamp resp,
                                 VehicleCountResponse.camera_id resp))
                   (filter (λ r, in_range s e (where_camera None) r) all) in
        g ≠ []
        ∧ VehicleCountResponse.car resp = sum_Z (VehicleCount.car <$> g)
        ∧ VehicleCountResponse.bike resp = sum_Z (VehicleCount.bike <$> g)
        ∧ VehicleCountResponse.truck resp = sum_Z (VehicleCount.truck <$> g)
        ∧ VehicleCountResponse.bus resp = sum_Z (VehicleCount.bus <$> g)
        ∧ VehicleCountResponse.auto resp = sum_Z (VehicleCount.auto <$> g)
        ∧ VehicleCountResponse.total resp = sum_Z (VehicleCount.total <$> g).
Proof.
  apply (daily_bucket_sums window_store sample_now 10 (Some "2024-03-01") None None).
  reflexivity.
Defined.

(** What the daily endpoint answers on a store without the table. *)
Lemma get_daily_data_on_missing_table tables now iv sd ed cam s e log :
  daily_range now sd ed [] = (Ok (s, e), log) →
  tables !! "jaloli_thresholds_detections_counts" = None →
  serve (get_daily_data tables now iv sd ed cam)
  = (Raise (HTTPException 500 "Processing error"),
     [ Execute (BucketSums "jaloli_thresholds_detections_counts"
                  (effective_interval iv) s e (where_camera cam));
       Rollback; Close ]).
Proof.
  intros Hr Hnone. pose proof (daily_range_log _ _ _ _ _ _ Hr) as ->.
  unfold serve, get_daily_data, try_except, try_finally.
  unfold mbind at 1, M_bind at 1. rewrite Hr.
  fold (effective_interval iv).
  unfold execute, emit, raise, run, from_table. rewrite Hnone.
  unfold mbind, M_bind, result_bind, mret, M_ret. reflexivity.
Qed.

(** When the statement of the daily endpoint fails, the session is
    rolled back and closed, and the answer is the 500 of the outer
    handler, not the one the inner handler raised. *)
Theorem daily_statement_failure tables now iv sd ed cam s e log :
  daily_range now sd ed [] = (Ok (s, e), log) →
  tables !! "jaloli_thresholds_detections_counts" = None →
  serve (get_daily_data tables now iv sd ed cam)
  = (Raise (HTTPException 500 "Processing error"),
     [ Execute (BucketSums "jaloli_thresholds_detections_counts"
                  (effective_interval iv) s e (where_camera cam));
       Rollback; Close ]).
Proof. apply get_daily_data_on_missing_table. Qed.

Lemma daily_statement_failure_witness :
  serve (get_daily_data ∅ sample_now 10 (Some "2024-03-01") None None)
  = (Raise (HTTPException 500 "Processing error"),
     [ Execute (BucketSums "jaloli_thresholds_detections_counts" 10
                  (at_time 0 0 0) (mkdt 2024 3 1 23 59 59 999999 None) None);
       Rollback; Close ]).
Proof.
  apply (daily_statement_failure ∅ sample_now 10 (Some "2024-03-01") None None
           (at_time 0 0 0) (mkdt 2024 3 1 23 59 59 999999 None) []).
  - reflexivity.
  - reflexivity.
Defined.

(** On every path on which the daily endpoint reaches its statement, the
    last thing the session sees is its close. *)
Theorem daily_session_closed tables now iv sd ed cam s e log :
  daily_range now sd ed [] = (Ok (s, e), log) →
  last (serve (get_daily_data tables now iv sd ed cam)).2 = Some Close.
Proof.
  intros Hr.
  destruct (tables !! "jaloli_thresholds_detections_counts") as [all|] eqn:Hall.
  - rewrite (get_daily_data_on_table _ _ _ _ _ _ _ _ _ all Hr Hall).
    cbn [snd]. rewrite last_app. reflexivity.
  - rewrite (get_daily_data_on_missing_table _ _ _ _ _ _ _ _ _ Hr Hall).
    reflexivity.
Qed.

Lemma daily_session_closed_witness :
  last (serve (get_daily_data sample_store sample_now 10
                 (Some "2024-03-01") None None)).2 = Some Close.
Proof.
  apply (daily_session_closed sample_store sample_now 10 (Some "2024-03-01")
           None None (at_time 0 0 0) (mkdt 2024 3 1 23 59 59 999999 None) []).
  reflexivity.
Defined.

(** Every daily bucket starts on a multiple of the bucket width within
    its hour, at second zero. *)
Theorem daily_bucket_alignment tables now iv sd ed cam rows resp :
  (serve (get_daily_data tables now iv sd ed cam)).1 = Ok rows →
  resp ∈ rows →
  1 ≤ effective_interval iv ≤ 60
  ∧ minute (VehicleCountResponse.timestamp resp) mod effective_interval iv = 0
  ∧ second (VehicleCountResponse.timestamp resp) = 0
  ∧ microsecond (VehicleCountResponse.timestamp resp) = 0.
Proof.
  intros Hok Hin.
  destruct (get_daily_data_inv _ _ _ _ _ _ _ Hok) as (s & e & all & Hr & Hall & ->).
  apply list_elem_of_fmap in Hin as (row & -> & Hrow).
  apply elem_of_grouped_sums in Hrow as (r & _ & Hb & _).
  cbn [format_row VehicleCountResponse.timestamp]. rewrite Hb.
  unfold bucket_of, replace_time. cbn [minute second microsecond].
  split; [|split; [apply Z.mod_mul; pose proof (effective_interval_pos iv); lia|
                   split; reflexivity]].
  unfold effective_interval.
  destruct (iv <? 1) eqn:H1; [cbn [orb]; lia|].
  destruct (iv >? 60) eqn:H2; [cbn [orb]; lia|].
  cbn [orb]. apply Z.ltb_ge in H1. rewrite Z.gtb_ltb in H2. apply Z.ltb_ge in H2. lia.
Qed.

Lemma daily_bucket_alignment_witness :
  1 ≤ effective_interval 15 ≤ 60
  ∧ minute (at_time 10 15 0) mod effective_interval 15 = 0
  ∧ second (at_time 10 15 0) = 0
  ∧ microsecond (at_time 10 15 0) = 0.
Proof.
  apply (daily_bucket_alignment window_store sample_now 15 (Some "2024-03-01")
           None None
           [ VehicleCountResponse.mk (at_time 10 15 0) "camA" 5 1 1 1 3 16 ]
           (VehicleCountResponse.mk (at_time 10 15 0) "camA" 5 1 1 1 3 16)).
  - reflexivity.
  - apply elem_of_cons. by left.
Defined.

Lemma dt_ltb_not_leb a b : dt_ltb a b = true → dt_leb b a = false.
Proof.
  unfold dt_ltb, dt_leb, dt_compare.
  rewrite (lex_compare_antisym (dt_fields a) (dt_fields b)).
  destruct (lex_compare (dt_fields a) (dt_fields b)); cbn [CompOpp];
    [discriminate|reflexivity|discriminate].
Qed.

(** A daily request whose end day precedes its start day is answered
    with an empty list, not with an error. *)
Theorem daily_reversed_range_is_empty tables now iv sd ed cam s e log all :
  daily_range now sd ed [] = (Ok (s, e), log) →
  tzinfo s = None → tzinfo e = None →
  dt_ltb e s = true →
  tables !! "jaloli_thresholds_detections_counts" = Some all →
  (serve (get_daily_data tables now iv sd ed cam)).1 = Ok [].
Proof.
  intros Hr Hs He Hlt Hall.
  rewrite (get_daily_data_on_table _ _ _ _ _ _ _ _ _ all Hr Hall). cbn [fst].
  rewrite (filter_none _ all); [reflexivity|].
  intros r _ Hp. unfold in_range in Hp.
  apply andb_prop_elim in Hp as [Hp _]. apply andb_prop_elim in Hp as [Hge Hle].
  apply Is_true_true in Hge, Hle.
  unfold ts_ge, ts_le, param_ts in Hge, Hle. rewrite Hs in Hge. rewrite He in Hle.
  pose proof (dt_leb_trans _ _ _ Hge Hle) as Hse.
  rewrite (dt_ltb_not_leb _ _ Hlt) in Hse. discriminate.
Qed.

Lemma daily_reversed_range_is_empty_witness :
  (serve (get_daily_data sample_store sample_now 10
            (Some "2024-03-02") (Some "2024-02-29") None)).1 = Ok [].
Proof.
  apply (daily_reversed_range_is_empty sample_store sample_now 10
           (Some "2024-03-02") (Some "2024-02-29") None
           (mkdt 2024 3 2 0 0 0 0 None) (mkdt 2024 2 29 23 59 59 999999 None) []
           sample_rows); reflexivity.
Defined.

(** ** The summary endpoint *)

Lemma head_elem_of {A} (x : A) (l : list A) : x ∈ l → head l ≠ None.
Proof. destruct l; [intros H; by apply elem_of_nil in H|discriminate]. Qed.

Lemma hourly_averages_nonempty g r : r ∈ g → head (hourly_averages g) ≠ None.
Proof.
  intros Hr. unfold hourly_averages.
  set (key := λ r : VehicleCount.t, date_trunc_hour (VehicleCount.timestamp r)).
  set (grp := filter (λ r0, key r0 = key r) g).
  assert (Hgrp : r ∈ grp) by (apply list_elem_of_filter; by split).
  destruct (sql_avg (VehicleCount.total <$> grp)) as [q|] eqn:Hq.
  - apply (head_elem_of (mk_peak (key r) q)). apply elem_of_sort_by.
    apply list_elem_of_omap. exists (key r, grp). split.
    + unfold group_by. apply list_elem_of_fmap. exists (key r). split; [reflexivity|].
      apply elem_of_remove_dups, list_elem_of_fmap. by exists r.
    + cbn [fst snd]. rewrite Hq. reflexivity.
  - exfalso. unfold sql_avg in Hq.
    destruct (VehicleCount.total <$> grp) eqn:Hg; [|discriminate].
    apply fmap_nil_inv in Hg. rewrite Hg in Hgrp. by apply elem_of_nil in Hgrp.
Qed.

(** The summary reports, for the records of its day and camera, the sum
    of each stored column, the stored totals summed as [all], the number
    of records, and a peak hour exactly when there is a record. *)
Theorem summary_totals tables now sd cam d all :
  (if truthy sd then sd ≫= fromisoformat else Some now) = Some d →
  tables !! "jaloli_thresholds_detections_counts" = Some all →
  let g := filter (λ r, in_range (start_of_day d) (end_of_day d)
                          (where_camera cam) r) all in
  ∃ body,
    (serve (get_summary tables now sd cam)).1 = Ok body
    ∧ date body = date_isoformat (start_of_day d)
    ∧ total_vehicles_of body
      = {| tv_cars := sum_Z (VehicleCount.car <$> g);
           tv_bikes := sum_Z (VehicleCount.bike <$> g);
           tv_trucks := sum_Z (VehicleCount.truck <$> g);
           tv_buses := sum_Z (VehicleCount.bus <$> g);
           tv_autos := sum_Z (VehicleCount.auto <$> g);
           tv_all := sum_Z (VehicleCount.total <$> g) |}
    ∧ record_count body = Z.of_nat (length g)
    ∧ (peak_hour body = None ↔ g = []).
Proof.
  intros Hd Hall g.
  rewrite (get_summary_on_table tables now sd cam d all Hd Hall).
  rewrite end_of_start_of_day. fold g. cbv zeta. cbn [fst].
  eexists. split; [reflexivity|].
  cbn [date total_vehicles_of record_count peak_hour day_totals_of
       s_total_cars s_total_bikes s_total_trucks s_total_buses s_total_autos
       s_total_all s_record_count].
  rewrite !default_sql_sum.
  split; [reflexivity|]. split; [reflexivity|]. split; [reflexivity|].
  split.
  - intros Hnone. destruct g as [|r g'] eqn:Hg; [reflexivity|].
    exfalso. apply (hourly_averages_nonempty (r :: g') r); [by left|].
    by destruct (head (hourly_averages (r :: g'))).
  - intros ->. reflexivity.
Qed.

Lemma summary_totals_witness :
  ∃ body,
    (serve (get_summary sample_store sample_now None None)).1 = Ok body
    ∧ date body = "2024-03-01"
    ∧ total_vehicles_of body = mk_total_vehicles 6 4 10 2 2 24
    ∧ record_count body = 2
    ∧ (peak_hour body = None ↔ sample_rows = []).
Proof.
  apply (summary_totals sample_store sample_now None None sample_now sample_rows);
    reflexivity.
Defined.






(** ** The cameras endpoint *)

Lemma string_leb_total a b : string_leb a b = true ∨ string_leb b a = true.
Proof.
  unfold string_leb. rewrite (String.compare_antisym a b).
  destruct (String.compare b a); cbn [CompOpp]; auto.
Qed.

(** On a store that does hold the relation the cameras endpoint names,
    it lists the camera identifiers of that relation, each once, in
    ascending order, with their number. *)
Theorem cameras_distinct_sorted tables now all :
  tables !! "jaloli_thresholds-detections-counts" = Some all →
  ∃ body,
    (serve (get_cameras tables now)).1 = Ok body
    ∧ NoDup (cameras body)
    ∧ (∀ c, c ∈ cameras body ↔ ∃ r, r ∈ all ∧ VehicleCount.camera_id r = c)
    ∧ Sorted (λ a b, string_leb a b = true) (cameras body)
    ∧ count body = Z.of_nat (length (cameras body)).
Proof.
  intros Hall. unfold serve, get_cameras, try_except, execute, run, from_table.
  rewrite Hall. unfold mbind, M_bind, result_bind, mret, M_ret.
  cbv beta iota zeta. cbn [fst]. eexists. split; [reflexivity|].
  cbn [cameras count]. split; [|split; [|split; [|reflexivity]]].
  - rewrite sort_by_perm. apply NoDup_remove_dups.
  - intros c. rewrite elem_of_sort_by, elem_of_remove_dups, list_elem_of_fmap.
    split; intros (r & H1 & H2); exists r; by split.
  - apply sort_by_sorted. apply string_leb_total.
Qed.

Lemma cameras_distinct_sorted_witness :
  ∃ body,
    (serve (get_cameras {[ "jaloli_thresholds-detections-counts" := sample_rows ]}
              sample_now)).1 = Ok body
    ∧ NoDup (cameras body)
    ∧ (∀ c, c ∈ cameras body ↔ ∃ r, r ∈ sample_rows ∧ VehicleCount.camera_id r = c)
    ∧ Sorted (λ a b, string_leb a b = true) (cameras body)
    ∧ count body = Z.of_nat (length (cameras body)).
Proof.
  apply (cameras_distinct_sorted
           {[ "jaloli_thresholds-detections-counts" := sample_rows ]} sample_now
           sample_rows).
  reflexivity.
Defined.

(** ** The last-hour endpoint *)

(** The last-hour endpoint answers the column sums over the records of
    the trailing hour that pass the camera filter, and zeros when there
    is none. *)
Theorem last_hour_totals tables now cam all :
  tables !! VehicleCount.tablename = Some all →
  let g := filter (λ r, ts_ge (VehicleCount.timestamp r)
                          (sub_timedelta now (hours 1))
                        && camera_matches (where_camera cam) r) all in
  (serve (get_last_hour_summary tables now cam)).1
  = Ok {| ht_cars := sum_Z (VehicleCount.car <$> g);
          ht_bikes := sum_Z (VehicleCount.bike <$> g);
          ht_trucks := sum_Z (VehicleCount.truck <$> g);
          ht_buses := sum_Z (VehicleCount.bus <$> g);
          ht_autos := sum_Z (VehicleCount.auto <$> g);
          ht_total := sum_Z (VehicleCount.total <$> g) |}
  ∧ (g = [] →
     (serve (get_last_hour_summary tables now cam)).1
     = Ok (mk_hourly_totals 0 0 0 0 0 0)).
Proof.
  intros Hall g.
  assert (Heq : (serve (get_last_hour_summary tables now cam)).1
    = Ok {| ht_cars := sum_Z (VehicleCount.car <$> g);
            ht_bikes := sum_Z (VehicleCount.bike <$> g);
            ht_trucks := sum_Z (VehicleCount.truck <$> g);
            ht_buses := sum_Z (VehicleCount.bus <$> g);
            ht_autos := sum_Z (VehicleCount.auto <$> g);
            ht_total := sum_Z (VehicleCount.total <$> g) |}).
  { unfold serve, get_last_hour_summary, try_except, execute, run, from_table.
    rewrite Hall. unfold mbind, M_bind, result_bind, mret, M_ret.
    cbv beta iota zeta. fold g. unfold fst, totals_of.
    cbn [total_cars total_bikes total_trucks total_buses total_autos
         total_vehicles].
    rewrite !default_sql_sum. reflexivity. }
  split; [exact Heq|].
  intros Hg. rewrite Heq, Hg. reflexivity.
Qed.

Lemma last_hour_totals_witness :
  (serve (get_last_hour_summary sample_store sample_now None)).1
  = Ok (mk_hourly_totals 3 0 5 0 1 9).
Proof.
  apply (last_hour_totals sample_store sample_now None sample_rows).
  reflexivity.
Defined.

(** ** Empty date arguments *)

(** An empty start_date or end_date is treated as omitted: the daily
    endpoint falls back to yesterday and to the start day, the summary
    endpoint to today; neither answers an error for it. *)
Theorem empty_date_is_omitted tables now iv sd ed cam :
  get_daily_data tables now iv (Some "") ed cam
  = get_daily_data tables now iv None ed cam
  ∧ get_daily_data tables now iv sd (Some "") cam
    = get_daily_data tables now iv sd None cam
  ∧ get_summary tables now (Some "") cam = get_summary tables now None cam
  ∧ daily_range now (Some "") (Some "") []
    = (Ok (start_of_day (sub_timedelta now (days 1)),
           end_of_day (sub_timedelta now (days 1))), []).
Proof.
  split; [reflexivity|]. split; [reflexivity|]. split; [reflexivity|].
  rewrite daily_range_eq. change (truthy (Some "")) with false. cbv iota.
  rewrite end_of_start_of_day. reflexivity.
Qed.

(** ** Store failures *)

(** When the detection table cannot be read, the secondly, hourly and
    last-hour endpoints answer 500 after their first statement, and so
    does the summary endpoint for a valid or omitted date. *)
Theorem store_failure_answers_500 tables now cam sd d :
  tables !! "jaloli_thresholds_detections_counts" = None →
  (if truthy sd then sd ≫= fromisoformat else Some now) = Some d →
  (status_of (serve (get_secondly_data tables now cam)).1 = 500
   ∧ (serve (get_secondly_data tables now cam)).2
     = [Execute (primary_query now cam)])
  ∧ (status_of (serve (get_hourly_data tables now cam)).1 = 500
     ∧ (serve (get_hourly_data tables now cam)).2
       = [Execute (MinTimestampToday "jaloli_thresholds_detections_counts"
                     (where_camera cam))])
  ∧ (status_of (serve (get_last_hour_summary tables now cam)).1 = 500
     ∧ (serve (get_last_hour_summary tables now cam)).2
       = [Execute (SumSince VehicleCount.tablename (sub_timedelta now (hours 1))
                     (where_camera cam))])
  ∧ (status_of (serve (get_summary tables now sd cam)).1 = 500
     ∧ (serve (get_summary tables now sd cam)).2
       = [Execute (DayTotals "jaloli_thresholds_detections_counts"
                     (start_of_day d) (end_of_day (start_of_day d))
                     (where_camera cam))]).
Proof.
  intros Hnone Hd.
  assert (Hnone' : tables !! VehicleCount.tablename = None) by exact Hnone.
  split; [|split; [|split]].
  - unfold serve, get_secondly_data, try_except, execute, run, from_table.
    rewrite Hnone'. split; reflexivity.
  - unfold serve, get_hourly_data, try_except, execute, run, from_table.
    rewrite Hnone. split; reflexivity.
  - unfold serve, get_last_hour_summary, try_except, execute, run, from_table.
    rewrite Hnone'. split; reflexivity.
  - unfold serve, get_summary, try_except, parse_date.
    destruct (truthy sd).
    + rewrite Hd. unfold execute, run, from_table. rewrite Hnone.
      split; reflexivity.
    + apply (inj Some) in Hd. subst d. unfold execute, run, from_table.
      rewrite Hnone. split; reflexivity.
Qed.

Lemma store_failure_answers_500_witness :
  status_of (serve (get_hourly_data ∅ sample_now None)).1 = 500.
Proof.
  apply (store_failure_answers_500 ∅ sample_now None None sample_now);
    reflexivity.
Defined.
